(** * A shallow embedding of the blog backend (server.js)

    The server is an Express application over two Mongoose models, [User]
    and [Post].  Every route handler of server.js is transcribed below as a
    function from the request and the document store to a response and the
    new document store.  The libraries the handlers call (bcryptjs,
    jsonwebtoken, path, the ObjectId cast of the driver) are operations of
    the class [Libraries]; everything is proved for every instance.

    Request fields are strings or [undefined]; the uploaded files
    themselves (the uploads directory) are not part of the state, only the
    file name multer gives them is. *)

From Stdlib Require Import ZArith String Ascii List Sorted Permutation DecimalString Lia.
From Stdlib Require Import DecimalPos DecimalZ.
From stdpp Require Import base decidable option list strings.

Local Open Scope string_scope.
Local Open Scope Z_scope.

(** ** JavaScript values the handlers rely on *)

Module JS.

(** A request field that is a string or [undefined]. Truthiness as in
    [if (!token)] and [title || post.title]: [undefined] and the empty
    string are falsy. *)
Definition truthy (v : option string) : bool :=
  match v with
  | Some s => negb (String.eqb s "")
  | None => false
  end.

(** [a || b] where [b] is a string. *)
Definition or (a : option string) (b : string) : string :=
  match a with
  | Some s => if String.eqb s "" then b else s
  | None => b
  end.

(** [s.split(sep)] for a one-character separator. *)
Fixpoint split (sep : ascii) (s : string) : list string :=
  match s with
  | EmptyString => [EmptyString]
  | String c rest =>
      if Ascii.eqb c sep then EmptyString :: split sep rest
      else match split sep rest with
           | w :: ws => String c w :: ws
           | [] => [String c EmptyString]
           end
  end.

(** [a[i]]: [undefined] out of range. *)
Definition index {A} (l : list A) (i : nat) : option A := nth_error l i.

(** [x && f(x)] on a string or [undefined]: a falsy [x] is the result. *)
Definition and (x : option string) (f : string -> option string) : option string :=
  match x with
  | Some s => if String.eqb s "" then Some s else f s
  | None => None
  end.

(** Number to string, as in [Date.now() + ext]. *)
Definition Number_toString (n : Z) : string :=
  NilZero.string_of_int (Z.to_int n).

End JS.

(** ** Data model: the two Mongoose schemas *)

(** An ObjectId, identified with its canonical text: what
    [post.author.toString()] and the JSON form of [user._id] give. *)
Definition ObjectId := string.

Module UserDoc.
(** userSchema, with [timestamps: true]. *)
Record t := mk {
  _id : ObjectId;
  username : string;
  email : string;
  password : string;
  createdAt : Z;
  updatedAt : Z
}.
End UserDoc.

Module PostDoc.
(** postSchema, with [timestamps: true]; [image] is optional. *)
Record t := mk {
  _id : ObjectId;
  title : string;
  content : string;
  image : option string;
  author : ObjectId;
  authorName : string;
  createdAt : Z;
  updatedAt : Z
}.

(** The [required: true] paths of the schema, checked by [save]. Every
    required path here is a String (or the already-cast author); a
    String satisfies [required] when it is not empty. *)
Definition valid (p : t) : bool :=
  negb (String.eqb (title p) "") &&
  negb (String.eqb (content p) "") &&
  negb (String.eqb (authorName p) "").
End PostDoc.

(** The document store: the two collections, in natural order. *)
Record Store := mkStore {
  users : list UserDoc.t;
  posts : list PostDoc.t
}.

(** Errors the handlers catch; [error.message] in the 500 body. *)
Inductive Error :=
| CastError
| ValidationError
| DuplicateKeyError
| IllegalArguments.

Inductive Result (A : Type) :=
| Ok (a : A)
| Throw (e : Error).
Arguments Ok {A} a.
Arguments Throw {A} e.

(** ** The libraries *)

(** The claims of the token: [{ userId, username }]. *)
Record Payload := mkPayload {
  userId : string;
  username : string
}.

Record SignOptions := mkSignOptions { expiresIn : string }.

Class Libraries := {
  (** [bcrypt.hash(s, rounds)] on a string, for the salt of this call *)
  bcrypt_hash : string -> nat -> string;
  (** [bcrypt.compare(s, hash)] on two strings *)
  bcrypt_compare : string -> string -> bool;
  (** [jwt.sign(payload, secret, options)] *)
  jwt_sign : Payload -> string -> SignOptions -> string;
  (** [jwt.verify(token, secret)]: the decoded payload, or [None] for [err] *)
  jwt_verify : string -> string -> option Payload;
  (** the cast of a string to an ObjectId; [None] is a cast error *)
  ObjectId_cast : string -> option ObjectId;
  (** [path.extname] *)
  path_extname : string -> string
}.

(** What the process and the clock supply to one request. *)
Record Env := mkEnv {
  JWT_SECRET : option string;   (* process.env.JWT_SECRET *)
  Date_now : Z;                 (* Date.now() in the multer filename callback *)
  timestamp : Z;                (* the time Mongoose stamps on a saved document *)
  ObjectId_new : ObjectId       (* the _id generated for a new document *)
}.

(** [process.env.JWT_SECRET || "your-secret-key"] *)
Definition secret (env : Env) : string :=
  JS.or (JWT_SECRET env) "your-secret-key".

(** ** Store actions: state passing with exceptions *)

Definition Action (A : Type) : Type := Store -> Result A * Store.

Global Instance Action_ret : MRet Action :=
  fun A a st => (Ok a, st).

Global Instance Action_bind : MBind Action :=
  fun A B k m st =>
    match m st with
    | (Ok a, st') => k a st'
    | (Throw e, st') => (Throw e, st')
    end.

Definition throw {A} (e : Error) : Action A := fun st => (Throw e, st).

(** [try { body } catch (error) { handler }] *)
Definition try_catch {A} (body : Action A) (handler : Error -> Store -> A * Store)
  : Store -> A * Store :=
  fun st =>
    match body st with
    | (Ok a, st') => (a, st')
    | (Throw e, st') => handler e st'
    end.

(** The String [required] validator: present and not empty. *)
Definition checkRequired (v : option string) : Result string :=
  match v with
  | Some s => if String.eqb s "" then Throw ValidationError else Ok s
  | None => Throw ValidationError
  end.

(** A query condition [{ field: q }] on a String path: an [undefined]
    value is sent as [null], which no stored string equals. *)
Definition matches (q : option string) (field : string) : bool :=
  match q with
  | Some s => String.eqb s field
  | None => false
  end.

(** ** The User model *)

Module User.

(** [User.findOne({ $or: [{ email }, { username }] })] *)
Definition findOne_or (email username : option string) : Action (option UserDoc.t) :=
  fun st =>
    (Ok (List.find (fun u => matches email (UserDoc.email u)
                             || matches username (UserDoc.username u))
                   (users st)), st).

(** [User.findOne({ email })] *)
Definition findOne (email : option string) : Action (option UserDoc.t) :=
  fun st =>
    (Ok (List.find (fun u => matches email (UserDoc.email u)) (users st)), st).

(** The unique indexes on [username] and [email]. *)
Definition duplicate (username email : string) (st : Store) : bool :=
  existsb (fun u => String.eqb (UserDoc.username u) username
                    || String.eqb (UserDoc.email u) email) (users st).

(** [new User({ username, email, password }).save()]: validation of the
    three required paths, the unique indexes, then the insert. *)
Definition save (env : Env) (username email : option string) (password : string)
  : Action UserDoc.t :=
  fun st =>
    match checkRequired username, checkRequired email, checkRequired (Some password) with
    | Ok n, Ok e, Ok p =>
        if duplicate n e st then (Throw DuplicateKeyError, st)
        else
          let u := UserDoc.mk (ObjectId_new env) n e p (timestamp env) (timestamp env) in
          (Ok u, mkStore (users st ++ [u]) (posts st))
    | _, _, _ => (Throw ValidationError, st)
    end.

End User.

(** ** The Post model *)

Module Post.

(** [.sort({ createdAt: -1 })]: newest first; documents with the same
    [createdAt] keep their natural order. *)
Fixpoint insert_desc (p : PostDoc.t) (l : list PostDoc.t) : list PostDoc.t :=
  match l with
  | [] => [p]
  | q :: l' =>
      if PostDoc.createdAt q <=? PostDoc.createdAt p then p :: q :: l'
      else q :: insert_desc p l'
  end.

Fixpoint sort_desc (l : list PostDoc.t) : list PostDoc.t :=
  match l with
  | [] => []
  | p :: l' => insert_desc p (sort_desc l')
  end.

(** The order of a listing: no document is older than the one after it. *)
Definition newest_first (p q : PostDoc.t) : Prop :=
  PostDoc.createdAt q <= PostDoc.createdAt p.

(** [Post.find().sort({ createdAt: -1 })] *)
Definition find_sorted : Action (list PostDoc.t) :=
  fun st => (Ok (sort_desc (posts st)), st).

(** [Post.find({ author }).sort({ createdAt: -1 })]: the filter value is
    cast to the ObjectId type of the [author] path. *)
Definition find_by_author_sorted `{!Libraries} (author : string) : Action (list PostDoc.t) :=
  fun st =>
    match ObjectId_cast author with
    | None => (Throw CastError, st)
    | Some a =>
        (Ok (sort_desc (List.filter (fun p => String.eqb (PostDoc.author p) a) (posts st))), st)
    end.

(** [Post.findById(id)] *)
Definition findById `{!Libraries} (id : string) : Action (option PostDoc.t) :=
  fun st =>
    match ObjectId_cast id with
    | None => (Throw CastError, st)
    | Some o => (Ok (List.find (fun p => String.eqb (PostDoc._id p) o) (posts st)), st)
    end.

(** [new Post({ title, content, image, author, authorName }).save()] *)
Definition create `{!Libraries} (env : Env) (title content image : option string)
    (author authorName : string) : Action PostDoc.t :=
  fun st =>
    match checkRequired title, checkRequired content,
          ObjectId_cast author, checkRequired (Some authorName) with
    | Ok t, Ok c, Some a, Ok n =>
        let post := PostDoc.mk (ObjectId_new env) t c image a n
                               (timestamp env) (timestamp env) in
        (Ok post, mkStore (users st) (posts st ++ [post]))
    | _, _, _, _ => (Throw ValidationError, st)
    end.

(** The stored document with the [_id] of [p] is replaced by [p]. *)
Fixpoint replace (p : PostDoc.t) (l : list PostDoc.t) : list PostDoc.t :=
  match l with
  | [] => []
  | q :: l' =>
      if String.eqb (PostDoc._id q) (PostDoc._id p) then p :: l'
      else q :: replace p l'
  end.

(** Whether an assignment changed one of the paths the update handler sets. *)
Definition isModified (loaded p : PostDoc.t) : bool :=
  negb (String.eqb (PostDoc.title loaded) (PostDoc.title p)
        && String.eqb (PostDoc.content loaded) (PostDoc.content p)
        && bool_decide (PostDoc.image loaded = PostDoc.image p)).

(** [post.save()] on a document that was [loaded] from the store and now
    reads [p]: validation, then the write of the modified document with a
    new [updatedAt]; an unmodified document is not written. *)
Definition save (env : Env) (loaded p : PostDoc.t) : Action PostDoc.t :=
  fun st =>
    if negb (PostDoc.valid p) then (Throw ValidationError, st)
    else if isModified loaded p then
      let p' := PostDoc.mk (PostDoc._id p) (PostDoc.title p) (PostDoc.content p)
                           (PostDoc.image p) (PostDoc.author p) (PostDoc.authorName p)
                           (PostDoc.createdAt p) (timestamp env) in
      (Ok p', mkStore (users st) (replace p' (posts st)))
    else (Ok p, st).

(** The first document with this [_id] is removed. *)
Fixpoint remove (o : ObjectId) (l : list PostDoc.t) : list PostDoc.t :=
  match l with
  | [] => []
  | q :: l' => if String.eqb (PostDoc._id q) o then l' else q :: remove o l'
  end.

(** [Post.findByIdAndDelete(id)] *)
Definition findByIdAndDelete `{!Libraries} (id : string) : Action (option PostDoc.t) :=
  fun st =>
    match ObjectId_cast id with
    | None => (Throw CastError, st)
    | Some o =>
        (Ok (List.find (fun p => String.eqb (PostDoc._id p) o) (posts st)),
         mkStore (users st) (remove o (posts st)))
    end.

End Post.

(** ** Requests and responses *)

Record Request := mkRequest {
  authorization : option string;    (* req.headers["authorization"] *)
  params_id : string;               (* req.params.id *)
  body_username : option string;    (* req.body.username *)
  body_email : option string;
  body_password : option string;
  body_title : option string;
  body_content : option string;
  image_part : option string        (* original name of the uploaded "image" file *)
}.

(** [req.file] as multer leaves it. *)
Record File := mkFile {
  originalname : string;
  filename : string
}.

(** The [user] object of the login response. *)
Record PublicUser := mkPublicUser {
  id : ObjectId;
  pu_username : string;
  pu_email : string
}.

Inductive Body :=
| Message (message : string)
| MessageError (message : string) (error : Error)
| TokenUser (token : string) (user : PublicUser)
| OnePost (post : PostDoc.t)
| Posts (l : list PostDoc.t).

Record Response := mkResponse {
  status : nat;
  body : Body
}.

(** [res.status(code).json(body)]; [res.json(body)] answers 200. *)
Definition json (code : nat) (b : Body) : Response := mkResponse code b.

Definition Handler : Type := Store -> Response * Store.

(** The [catch] block every handler has. *)
Definition server_error (error : Error) : Handler :=
  fun st => (json 500 (MessageError "Server error" error), st).

(** ** Middleware *)

(** [authHeader && authHeader.split(" ")[1]] *)
Definition bearer_token (authHeader : option string) : option string :=
  JS.and authHeader (fun h => JS.index (JS.split " " h) 1).

(** authenticateToken *)
Definition authenticateToken `{!Libraries} (env : Env) (req : Request)
    (next : Payload -> Handler) : Handler :=
  let authHeader := authorization req in
  let token := bearer_token authHeader in
  if negb (JS.truthy token) then
    fun st => (json 401 (Message "Access token required"), st)
  else
    match jwt_verify (default "" token) (secret env) with
    | None => fun st => (json 403 (Message "Invalid token"), st)
    | Some user => next user
    end.

(** The [filename] callback of the multer disk storage. *)
Definition multer_filename `{!Libraries} (env : Env) (originalname : string) : string :=
  JS.Number_toString (Date_now env) ++ path_extname originalname.

(** [upload.single("image")]: [req.file], when the request carries the file. *)
Definition upload_single `{!Libraries} (env : Env) (req : Request) : option File :=
  match image_part req with
  | Some name => Some (mkFile name (multer_filename env name))
  | None => None
  end.

(** [bcrypt.hash(s, rounds)]: rejects when [s] is not a string. *)
Definition bcrypt_hash_js `{!Libraries} (s : option string) (rounds : nat) : Action string :=
  match s with
  | Some s => mret (bcrypt_hash s rounds)
  | None => throw IllegalArguments
  end.

(** [bcrypt.compare(s, hash)]: rejects when [s] is not a string. *)
Definition bcrypt_compare_js `{!Libraries} (s : option string) (hash : string) : Action bool :=
  match s with
  | Some s => mret (bcrypt_compare s hash)
  | None => throw IllegalArguments
  end.

(** ** Route handlers *)

(** GET /api/my-posts, after authenticateToken *)
Definition my_posts `{!Libraries} (user : Payload) : Handler :=
  try_catch
    (userPosts ← Post.find_by_author_sorted (userId user);
     mret (json 200 (Posts userPosts)))
    server_error.

(** POST /api/register *)
Definition register `{!Libraries} (env : Env) (req : Request) : Handler :=
  try_catch
    (let username := body_username req in
     let email := body_email req in
     let password := body_password req in
     existingUser ← User.findOne_or email username;
     match existingUser with
     | Some _ => mret (json 400 (Message "User already exists"))
     | None =>
         hashedPassword ← bcrypt_hash_js password 10;
         _ ← User.save env username email hashedPassword;
         mret (json 201 (Message "User created successfully"))
     end)
    server_error.

(** POST /api/login *)
Definition login `{!Libraries} (env : Env) (req : Request) : Handler :=
  try_catch
    (let email := body_email req in
     let password := body_password req in
     user ← User.findOne email;
     match user with
     | None => mret (json 400 (Message "Invalid credentials"))
     | Some user =>
         ok ← bcrypt_compare_js password (UserDoc.password user);
         if negb ok then mret (json 400 (Message "Invalid credentials"))
         else
           let token :=
             jwt_sign (mkPayload (UserDoc._id user) (UserDoc.username user))
                      (secret env) (mkSignOptions "24h") in
           mret (json 200 (TokenUser token
                   (mkPublicUser (UserDoc._id user) (UserDoc.username user)
                                 (UserDoc.email user))))
     end)
    server_error.

(** GET /api/posts *)
Definition list_posts : Handler :=
  try_catch
    (posts ← Post.find_sorted;
     mret (json 200 (Posts posts)))
    server_error.

(** GET /api/posts/:id *)
Definition get_post `{!Libraries} (req : Request) : Handler :=
  try_catch
    (post ← Post.findById (params_id req);
     match post with
     | None => mret (json 404 (Message "Post not found"))
     | Some post => mret (json 200 (OnePost post))
     end)
    server_error.

(** POST /api/posts, after authenticateToken and upload.single("image") *)
Definition create_post `{!Libraries} (env : Env) (user : Payload) (file : option File)
    (req : Request) : Handler :=
  try_catch
    (let title := body_title req in
     let content := body_content req in
     let imagePath :=
       match file with
       | Some f => Some ("/uploads/" ++ filename f)
       | None => None
       end in
     post ← Post.create env title content imagePath (userId user) (username user);
     mret (json 201 (OnePost post)))
    server_error.

(** The three assignments of the update handler on the loaded document. *)
Definition assign (post : PostDoc.t) (title content : option string) (file : option File)
  : PostDoc.t :=
  PostDoc.mk (PostDoc._id post)
    (JS.or title (PostDoc.title post))
    (JS.or content (PostDoc.content post))
    (match file with
     | Some f => Some ("/uploads/" ++ filename f)
     | None => PostDoc.image post
     end)
    (PostDoc.author post) (PostDoc.authorName post)
    (PostDoc.createdAt post) (PostDoc.updatedAt post).

(** PUT /api/posts/:id, after authenticateToken and upload.single("image") *)
Definition update_post `{!Libraries} (env : Env) (user : Payload) (file : option File)
    (req : Request) : Handler :=
  try_catch
    (let title := body_title req in
     let content := body_content req in
     post ← Post.findById (params_id req);
     match post with
     | None => mret (json 404 (Message "Post not found"))
     | Some post =>
         if negb (String.eqb (PostDoc.author post) (userId user)) then
           mret (json 403 (Message "Not authorized"))
         else
           saved ← Post.save env post (assign post title content file);
           mret (json 200 (OnePost saved))
     end)
    server_error.

(** DELETE /api/posts/:id, after authenticateToken *)
Definition delete_post `{!Libraries} (user : Payload) (req : Request) : Handler :=
  try_catch
    (post ← Post.findById (params_id req);
     match post with
     | None => mret (json 404 (Message "Post not found"))
     | Some post =>
         if negb (String.eqb (PostDoc.author post) (userId user)) then
           mret (json 403 (Message "Not authorized"))
         else
           _ ← Post.findByIdAndDelete (params_id req);
           mret (json 200 (Message "Post deleted successfully"))
     end)
    server_error.

(** ** The routes, with their middleware chains *)

Definition GET_my_posts `{!Libraries} (env : Env) (req : Request) : Handler :=
  authenticateToken env req (fun user => my_posts user).

Definition POST_posts `{!Libraries} (env : Env) (req : Request) : Handler :=
  authenticateToken env req (fun user => create_post env user (upload_single env req) req).

Definition PUT_posts_id `{!Libraries} (env : Env) (req : Request) : Handler :=
  authenticateToken env req (fun user => update_post env user (upload_single env req) req).

Definition DELETE_posts_id `{!Libraries} (env : Env) (req : Request) : Handler :=
  authenticateToken env req (fun user => delete_post user req).

(** What the user schema asks of the collection: the [unique] indexes on
    [username] and [email], and the three [required] String paths. *)
Definition users_ok (st : Store) : Prop :=
  List.NoDup (map UserDoc.username (users st)) /\
  List.NoDup (map UserDoc.email (users st)) /\
  Forall (fun u => UserDoc.username u <> "" /\ UserDoc.email u <> "" /\
                   UserDoc.password u <> "") (users st).

(** The [_id] index of the posts collection. *)
Definition ids_unique (st : Store) : Prop :=
  List.NoDup (map PostDoc._id (posts st)).

(** [pieces.join(sep)] for a one-character separator. *)
Fixpoint join (sep : ascii) (pieces : list string) : string :=
  match pieces with
  | [] => EmptyString
  | [w] => w
  | w :: rest => w ++ String sep (join sep rest)
  end.

(** What [save] maintains: every stored post meets the schema. *)
Definition schema_ok (st : Store) : Prop :=
  Forall (fun p => PostDoc.valid p = true) (posts st).

(** ** Stand-in libraries for running the handlers on examples *)

Module Sample.

Definition is_hex (c : ascii) : bool :=
  let n := nat_of_ascii c in
  ((48 <=? n) && (n <=? 57) || (97 <=? n) && (n <=? 102))%nat.

Fixpoint all_hex (s : string) : bool :=
  match s with
  | EmptyString => true
  | String c rest => is_hex c && all_hex rest
  end.

(** 24 lower-case hexadecimal digits. *)
Definition cast (s : string) : option ObjectId :=
  if (String.length s =? 24)%nat && all_hex s then Some s else None.

Definition hash (s : string) (rounds : nat) : string := "$2a$" ++ s.

Definition sign (p : Payload) (key : string) (o : SignOptions) : string :=
  userId p ++ "." ++ username p ++ "." ++ key.

Definition verify (token key : string) : option Payload :=
  match JS.split "." token with
  | [u; n; k] => if String.eqb k key then Some (mkPayload u n) else None
  | _ => None
  end.

(** The text from the last dot on. *)
Fixpoint extname (s : string) : string :=
  match s with
  | EmptyString => EmptyString
  | String c rest =>
      match extname rest with
      | EmptyString => if Ascii.eqb c "." then s else EmptyString
      | e => e
      end
  end.

Definition libraries : Libraries := {|
  bcrypt_hash := hash;
  bcrypt_compare := fun s h => String.eqb h (hash s 10);
  jwt_sign := sign;
  jwt_verify := verify;
  ObjectId_cast := cast;
  path_extname := extname
|}.

Definition env : Env := mkEnv None 1700000000000 1700000000123 "65a000000000000000000003".

Definition alice_id : ObjectId := "65a000000000000000000001".
Definition bob_id : ObjectId := "65a000000000000000000002".

Definition alice : UserDoc.t :=
  UserDoc.mk alice_id "alice" "a@x.com" (hash "pw1" 10) 1000 1000.

Definition bob : UserDoc.t :=
  UserDoc.mk bob_id "bob" "b@x.com" (hash "pw2" 10) 2000 2000.

Definition hi : PostDoc.t :=
  PostDoc.mk "65b000000000000000000001" "Hi" "World" None alice_id "alice" 3000 3000.

Definition news : PostDoc.t :=
  PostDoc.mk "65b000000000000000000002" "News" "Today" (Some "/uploads/1.png")
             bob_id "bob" 5000 5000.

Definition old : PostDoc.t :=
  PostDoc.mk "65b000000000000000000003" "Old" "Before" None alice_id "alice" 2500 2600.

Definition store : Store := mkStore [alice; bob] [hi; news; old].

Definition request : Request :=
  mkRequest None "" None None None None None None.

End Sample.

(** ** Running the handlers *)

Example split_bearer : JS.split " " "Bearer abc.def" = ["Bearer"; "abc.def"].
Proof. reflexivity. Qed.

Example split_two_spaces : JS.split " " "Bearer  abc" = ["Bearer"; ""; "abc"].
Proof. reflexivity. Qed.

Example split_empty : JS.split " " "" = [""].
Proof. reflexivity. Qed.

Example number_toString_now : JS.Number_toString 1700000000000 = "1700000000000".
Proof. reflexivity. Qed.

Example sample_extname : Sample.extname "photo.final.png" = ".png".
Proof. reflexivity. Qed.

Example sample_list :
  fst (list_posts Sample.store) = json 200 (Posts [Sample.news; Sample.hi; Sample.old]).
Proof. reflexivity. Qed.

Example sample_login :
  fst (@login Sample.libraries Sample.env
         (mkRequest None "" None (Some "a@x.com") (Some "pw1") None None None) Sample.store)
  = json 200 (TokenUser "65a000000000000000000001.alice.your-secret-key"
                (mkPublicUser Sample.alice_id "alice" "a@x.com")).
Proof. reflexivity. Qed.

Example sample_delete_other :
  @delete_post Sample.libraries (mkPayload Sample.bob_id "bob")
     (mkRequest None "65b000000000000000000001" None None None None None None) Sample.store
  = (json 403 (Message "Not authorized"), Sample.store).
Proof. reflexivity. Qed.

Example sample_delete_own :
  @delete_post Sample.libraries (mkPayload Sample.alice_id "alice")
     (mkRequest None "65b000000000000000000001" None None None None None None) Sample.store
  = (json 200 (Message "Post deleted successfully"),
     mkStore [Sample.alice; Sample.bob] [Sample.news; Sample.old]).
Proof. reflexivity. Qed.

(** ** The sort of a listing *)

Lemma insert_desc_Permutation (p : PostDoc.t) (l : list PostDoc.t) :
  Permutation (p :: l) (Post.insert_desc p l).
Proof.
  induction l as [|q l IH]; simpl.
  - reflexivity.
  - destruct (PostDoc.createdAt q <=? PostDoc.createdAt p).
    + reflexivity.
    + rewrite perm_swap. now apply perm_skip.
Qed.

Lemma sort_desc_Permutation (l : list PostDoc.t) :
  Permutation l (Post.sort_desc l).
Proof.
  induction l as [|p l IH]; simpl.
  - constructor.
  - rewrite <- insert_desc_Permutation. now apply perm_skip.
Qed.

Lemma insert_desc_HdRel (a p : PostDoc.t) (l : list PostDoc.t) :
  Post.newest_first a p -> HdRel Post.newest_first a l ->
  HdRel Post.newest_first a (Post.insert_desc p l).
Proof.
  intros Hap Hal. destruct l as [|q l]; simpl.
  - now constructor.
  - destruct (PostDoc.createdAt q <=? PostDoc.createdAt p).
    + now constructor.
    + inversion Hal; subst. now constructor.
Qed.

Lemma insert_desc_Sorted (p : PostDoc.t) (l : list PostDoc.t) :
  Sorted Post.newest_first l -> Sorted Post.newest_first (Post.insert_desc p l).
Proof.
  induction l as [|q l IH]; intros Hs; simpl.
  - repeat constructor.
  - destruct (Z.leb_spec (PostDoc.createdAt q) (PostDoc.createdAt p)) as [Hle|Hlt].
    + constructor; [assumption | now constructor].
    + inversion Hs as [|? ? Hl Hq]; subst.
      constructor; [now apply IH |].
      apply insert_desc_HdRel; [| assumption].
      unfold Post.newest_first. lia.
Qed.

Lemma sort_desc_Sorted (l : list PostDoc.t) :
  Sorted Post.newest_first (Post.sort_desc l).
Proof.
  induction l as [|p l IH]; simpl.
  - constructor.
  - now apply insert_desc_Sorted.
Qed.

Lemma sort_desc_adjacent (l : list PostDoc.t) :
  Sorted (fun p q => PostDoc.createdAt p >= PostDoc.createdAt q) (Post.sort_desc l).
Proof.
  generalize (sort_desc_Sorted l). generalize (Post.sort_desc l) as s.
  induction 1 as [|a s _ IH Hd]; constructor; [exact IH |].
  destruct Hd as [|b s' Hab]; constructor.
  unfold Post.newest_first in Hab. lia.
Qed.

(** C8: ListAll answers 200 with every stored post, each exactly once,
    and in the answer no post is older than the post that follows it
    (createdAt never increases along the list). The store is not changed. *)
Theorem C8_list_all_newest_first (st : Store) :
  exists l : list PostDoc.t,
    list_posts st = (json 200 (Posts l), st) /\
    Permutation (posts st) l /\
    Sorted (fun p q => PostDoc.createdAt p >= PostDoc.createdAt q) l.
Proof.
  exists (Post.sort_desc (posts st)). split; [reflexivity |]. split.
  - apply sort_desc_Permutation.
  - apply sort_desc_adjacent.
Qed.

(** C9: for an identity whose userId is the text of the ObjectId [a],
    ListMine answers 200 with exactly the stored posts whose author is
    [a], each once and none of another author, newest first. *)
Theorem C9_list_mine_exact `{!Libraries} (user : Payload) (a : ObjectId) (st : Store) :
  ObjectId_cast (userId user) = Some a ->
  exists l : list PostDoc.t,
    my_posts user st = (json 200 (Posts l), st) /\
    Permutation (List.filter (fun p => String.eqb (PostDoc.author p) a) (posts st)) l /\
    (forall p, In p l <-> In p (posts st) /\ PostDoc.author p = a) /\
    Sorted (fun p q => PostDoc.createdAt p >= PostDoc.createdAt q) l.
Proof.
  intros Hcast.
  exists (Post.sort_desc (List.filter (fun p => String.eqb (PostDoc.author p) a) (posts st))).
  split.
  { unfold my_posts, try_catch, mbind, Action_bind, Post.find_by_author_sorted.
    now rewrite Hcast. }
  split; [apply sort_desc_Permutation |].
  split; [| apply sort_desc_adjacent].
  intros p. split.
  - intros Hin.
    apply (Permutation_in p (Permutation_sym (sort_desc_Permutation _))) in Hin.
    apply filter_In in Hin as [Hp Ha]. split; [exact Hp |].
    now apply String.eqb_eq.
  - intros [Hp Ha].
    apply (Permutation_in p (sort_desc_Permutation _)).
    apply filter_In. split; [exact Hp |]. now apply String.eqb_eq.
Qed.

Lemma C9_list_mine_witness :
  @ObjectId_cast Sample.libraries (userId (mkPayload Sample.alice_id "alice"))
    = Some Sample.alice_id /\
  exists l : list PostDoc.t,
    @my_posts Sample.libraries (mkPayload Sample.alice_id "alice") Sample.store
      = (json 200 (Posts l), Sample.store) /\
    Permutation (List.filter (fun p => String.eqb (PostDoc.author p) Sample.alice_id)
                             (posts Sample.store)) l /\
    (forall p, In p l <-> In p (posts Sample.store) /\ PostDoc.author p = Sample.alice_id) /\
    Sorted (fun p q => PostDoc.createdAt p >= PostDoc.createdAt q) l.
Proof.
  split; [reflexivity |].
  apply (@C9_list_mine_exact Sample.libraries). reflexivity.
Defined.

(** ** Lookup by id *)

Lemma findById_store `{!Libraries} (id : string) (st : Store) :
  snd (Post.findById id st) = st.
Proof. unfold Post.findById. now destruct (ObjectId_cast id). Qed.

Lemma findById_found `{!Libraries} (id : string) (st : Store) (P : PostDoc.t) :
  fst (Post.findById id st) = Ok (Some P) ->
  exists o, ObjectId_cast id = Some o /\
            List.find (fun p => String.eqb (PostDoc._id p) o) (posts st) = Some P /\
            PostDoc._id P = o.
Proof.
  unfold Post.findById. destruct (ObjectId_cast id) as [o|]; simpl; [| discriminate].
  intros [= Hfind]. exists o. repeat split; [exact Hfind |].
  apply find_some in Hfind as [_ Heq]. now apply String.eqb_eq.
Qed.

Lemma findById_run `{!Libraries} (id : string) (st : Store) (r : option PostDoc.t) :
  fst (Post.findById id st) = Ok r -> Post.findById id st = (Ok r, st).
Proof.
  intros Hr. rewrite (surjective_pairing (Post.findById id st)).
  now rewrite Hr, findById_store.
Qed.

Lemma find_replace (p' P : PostDoc.t) (o : ObjectId) (l : list PostDoc.t) :
  List.find (fun q => String.eqb (PostDoc._id q) o) l = Some P ->
  PostDoc._id p' = o ->
  List.find (fun q => String.eqb (PostDoc._id q) o) (Post.replace p' l) = Some p'.
Proof.
  intros Hfind Hid. induction l as [|q l IH]; simpl in *; [discriminate |].
  rewrite Hid. destruct (String.eqb (PostDoc._id q) o) eqn:Hq; simpl.
  - now rewrite Hid, String.eqb_refl.
  - rewrite Hq. now apply IH.
Qed.

(** ** Ownership *)

Lemma update_post_forbidden `{!Libraries} (env : Env) (user : Payload) (file : option File)
    (req : Request) (st : Store) (P : PostDoc.t) :
  fst (Post.findById (params_id req) st) = Ok (Some P) ->
  userId user <> PostDoc.author P ->
  update_post env user file req st = (json 403 (Message "Not authorized"), st).
Proof.
  intros Hfind Hne. apply findById_run in Hfind.
  unfold update_post, try_catch, mbind, Action_bind. rewrite Hfind.
  destruct (String.eqb_spec (PostDoc.author P) (userId user)) as [Heq|_]; [| reflexivity].
  now contradict Hne.
Qed.

Lemma delete_post_forbidden `{!Libraries} (user : Payload) (req : Request) (st : Store)
    (P : PostDoc.t) :
  fst (Post.findById (params_id req) st) = Ok (Some P) ->
  userId user <> PostDoc.author P ->
  delete_post user req st = (json 403 (Message "Not authorized"), st).
Proof.
  intros Hfind Hne. apply findById_run in Hfind.
  unfold delete_post, try_catch, mbind, Action_bind. rewrite Hfind.
  destruct (String.eqb_spec (PostDoc.author P) (userId user)) as [Heq|_]; [| reflexivity].
  now contradict Hne.
Qed.

(** C1: when the post stored under the id of the request is P, an
    identity whose userId differs from P.author gets 403 from both Update
    and Delete and the store is left as it was; so a request that changes
    the store comes from the identity equal to P.author. *)
Theorem C1_only_author_mutates `{!Libraries} (env : Env) (user : Payload)
    (file : option File) (req : Request) (st : Store) (P : PostDoc.t) :
  fst (Post.findById (params_id req) st) = Ok (Some P) ->
  (userId user <> PostDoc.author P ->
     update_post env user file req st = (json 403 (Message "Not authorized"), st) /\
     delete_post user req st = (json 403 (Message "Not authorized"), st)) /\
  (snd (update_post env user file req st) <> st \/ snd (delete_post user req st) <> st ->
     userId user = PostDoc.author P).
Proof.
  intros Hfind. split.
  - intros Hne. split.
    + now apply update_post_forbidden with (P := P).
    + now apply delete_post_forbidden with (P := P).
  - intros Hchg. destruct (string_dec (userId user) (PostDoc.author P)) as [Heq|Hne];
      [exact Heq | exfalso].
    destruct Hchg as [Hu|Hd].
    + apply Hu. now rewrite (update_post_forbidden env user file req st P Hfind Hne).
    + apply Hd. now rewrite (delete_post_forbidden user req st P Hfind Hne).
Qed.

Lemma C1_only_author_mutates_witness :
  let req := mkRequest None "65b000000000000000000001" None None (Some "x") (Some "Hacked")
                       None None in
  let user := mkPayload Sample.bob_id "bob" in
  fst (@Post.findById Sample.libraries (params_id req) Sample.store) = Ok (Some Sample.hi) /\
  (userId user <> PostDoc.author Sample.hi ->
     @update_post Sample.libraries Sample.env user None req Sample.store
       = (json 403 (Message "Not authorized"), Sample.store) /\
     @delete_post Sample.libraries user req Sample.store
       = (json 403 (Message "Not authorized"), Sample.store)) /\
  (snd (@update_post Sample.libraries Sample.env user None req Sample.store) <> Sample.store \/
   snd (@delete_post Sample.libraries user req Sample.store) <> Sample.store ->
     userId user = PostDoc.author Sample.hi).
Proof.
  split; [reflexivity |].
  apply (@C1_only_author_mutates Sample.libraries). reflexivity.
Defined.

(** ** Update by the author *)

Lemma or_nonempty (a : option string) (b : string) :
  b <> "" -> JS.or a b <> "".
Proof.
  intros Hb. unfold JS.or. destruct a as [s|]; [| exact Hb].
  destruct (String.eqb_spec s ""); assumption.
Qed.

Lemma valid_fields (p : PostDoc.t) :
  PostDoc.valid p = true <->
  PostDoc.title p <> "" /\ PostDoc.content p <> "" /\ PostDoc.authorName p <> "".
Proof.
  unfold PostDoc.valid. rewrite !andb_true_iff, !negb_true_iff, !String.eqb_neq. tauto.
Qed.

Lemma assign_valid (P : PostDoc.t) (title content : option string) (file : option File) :
  PostDoc.valid P = true -> PostDoc.valid (assign P title content file) = true.
Proof.
  rewrite !valid_fields. intros (Ht & Hc & Hn). simpl.
  auto using or_nonempty.
Qed.

Lemma assign_unmodified (P : PostDoc.t) (title content : option string) (file : option File) :
  Post.isModified P (assign P title content file) = false ->
  assign P title content file = P.
Proof.
  unfold Post.isModified. rewrite negb_false_iff, !andb_true_iff.
  intros [[Ht Hc] Hi]. apply String.eqb_eq in Ht, Hc. apply bool_decide_eq_true in Hi.
  destruct P; unfold assign in *; simpl in *. congruence.
Qed.

Lemma update_post_author `{!Libraries} (env : Env) (user : Payload) (file : option File)
    (req : Request) (st : Store) (P : PostDoc.t) :
  fst (Post.findById (params_id req) st) = Ok (Some P) ->
  userId user = PostDoc.author P ->
  update_post env user file req st =
    match Post.save env P (assign P (body_title req) (body_content req) file) st with
    | (Ok saved, st') => (json 200 (OnePost saved), st')
    | (Throw e, st') => server_error e st'
    end.
Proof.
  intros Hfind Heq. apply findById_run in Hfind.
  unfold update_post, try_catch, mbind, Action_bind. rewrite Hfind, Heq, String.eqb_refl.
  simpl. now destruct (Post.save env P _ st) as [[saved|e] st'].
Qed.

(** C6: Update by the author of a stored post P (one that meets the
    schema) answers 200 with the updated post, which is then the post
    stored under the id. An absent or empty title (content) keeps the
    stored title (content) and a supplied one replaces it; an uploaded
    file sets image to its /uploads/ path and no file keeps image; _id,
    author, authorName and createdAt are those of P. *)
Theorem C6_update_keeps_unsupplied `{!Libraries} (env : Env) (user : Payload)
    (file : option File) (req : Request) (st : Store) (P : PostDoc.t) :
  fst (Post.findById (params_id req) st) = Ok (Some P) ->
  userId user = PostDoc.author P ->
  PostDoc.valid P = true ->
  exists (P' : PostDoc.t) (st' : Store),
    update_post env user file req st = (json 200 (OnePost P'), st') /\
    fst (Post.findById (params_id req) st') = Ok (Some P') /\
    (body_title req = None \/ body_title req = Some "" -> PostDoc.title P' = PostDoc.title P) /\
    (body_content req = None \/ body_content req = Some "" ->
       PostDoc.content P' = PostDoc.content P) /\
    (forall t, body_title req = Some t -> t <> "" -> PostDoc.title P' = t) /\
    (forall c, body_content req = Some c -> c <> "" -> PostDoc.content P' = c) /\
    (forall f, file = Some f -> PostDoc.image P' = Some ("/uploads/" ++ filename f)) /\
    (file = None -> PostDoc.image P' = PostDoc.image P) /\
    PostDoc._id P' = PostDoc._id P /\
    PostDoc.author P' = PostDoc.author P /\
    PostDoc.authorName P' = PostDoc.authorName P /\
    PostDoc.createdAt P' = PostDoc.createdAt P.
Proof.
  intros Hfind Heq Hvalid.
  rewrite (update_post_author env user file req st P Hfind Heq).
  pose proof (assign_valid P (body_title req) (body_content req) file Hvalid) as Hv.
  destruct (findById_found _ _ _ Hfind) as (o & Hcast & Hlook & Hid).
  unfold Post.save. rewrite Hv. simpl negb. cbv iota.
  set (Q := assign P (body_title req) (body_content req) file) in *.
  assert (Hfields :
    (body_title req = None \/ body_title req = Some "" -> PostDoc.title Q = PostDoc.title P) /\
    (body_content req = None \/ body_content req = Some "" ->
       PostDoc.content Q = PostDoc.content P) /\
    (forall t, body_title req = Some t -> t <> "" -> PostDoc.title Q = t) /\
    (forall c, body_content req = Some c -> c <> "" -> PostDoc.content Q = c) /\
    (forall f, file = Some f -> PostDoc.image Q = Some ("/uploads/" ++ filename f)) /\
    (file = None -> PostDoc.image Q = PostDoc.image P)).
  { subst Q. simpl. repeat split.
    - now intros [-> | ->].
    - now intros [-> | ->].
    - intros t -> Ht. simpl. now destruct (String.eqb_spec t "").
    - intros c -> Hc. simpl. now destruct (String.eqb_spec c "").
    - now intros f ->.
    - now intros ->. }
  destruct Hfields as (F1 & F2 & F3 & F4 & F5 & F6).
  destruct (Post.isModified P Q) eqn:Hmod.
  - eexists. eexists. split; [reflexivity |]. split.
    { unfold Post.findById. rewrite Hcast. simpl. f_equal.
      apply find_replace with (P := P); [exact Hlook | exact Hid]. }
    simpl. repeat split; assumption.
  - exists Q, st. split; [reflexivity |]. split.
    { subst Q. rewrite (assign_unmodified _ _ _ _ Hmod). exact Hfind. }
    repeat split; assumption.
Qed.

Lemma C6_update_keeps_unsupplied_witness :
  let req := mkRequest None "65b000000000000000000001" None None None (Some "")
                       (Some "Everyone") None in
  let user := mkPayload Sample.alice_id "alice" in
  let file := Some (mkFile "cat.png" "1700000000000.png") in
  (fst (@Post.findById Sample.libraries (params_id req) Sample.store) = Ok (Some Sample.hi) /\
   userId user = PostDoc.author Sample.hi /\
   PostDoc.valid Sample.hi = true) /\
  exists (P' : PostDoc.t) (st' : Store),
    @update_post Sample.libraries Sample.env user file req Sample.store
      = (json 200 (OnePost P'), st') /\
    fst (@Post.findById Sample.libraries (params_id req) st') = Ok (Some P') /\
    (body_title req = None \/ body_title req = Some "" ->
       PostDoc.title P' = PostDoc.title Sample.hi) /\
    (body_content req = None \/ body_content req = Some "" ->
       PostDoc.content P' = PostDoc.content Sample.hi) /\
    (forall t, body_title req = Some t -> t <> "" -> PostDoc.title P' = t) /\
    (forall c, body_content req = Some c -> c <> "" -> PostDoc.content P' = c) /\
    (forall f, file = Some f -> PostDoc.image P' = Some ("/uploads/" ++ filename f)) /\
    (file = None -> PostDoc.image P' = PostDoc.image Sample.hi) /\
    PostDoc._id P' = PostDoc._id Sample.hi /\
    PostDoc.author P' = PostDoc.author Sample.hi /\
    PostDoc.authorName P' = PostDoc.authorName Sample.hi /\
    PostDoc.createdAt P' = PostDoc.createdAt Sample.hi.
Proof.
  split; [repeat split |].
  apply (@C6_update_keeps_unsupplied Sample.libraries); reflexivity.
Defined.

Example sample_update :
  @update_post Sample.libraries Sample.env (mkPayload Sample.alice_id "alice")
     (Some (mkFile "cat.png" "1700000000000.png"))
     (mkRequest None "65b000000000000000000001" None None None (Some "") (Some "Everyone") None)
     Sample.store
  = (json 200 (OnePost (PostDoc.mk "65b000000000000000000001" "Hi" "Everyone"
                          (Some "/uploads/1700000000000.png") Sample.alice_id "alice"
                          3000 1700000000123)),
     mkStore [Sample.alice; Sample.bob]
       [PostDoc.mk "65b000000000000000000001" "Hi" "Everyone"
          (Some "/uploads/1700000000000.png") Sample.alice_id "alice" 3000 1700000000123;
        Sample.news; Sample.old]).
Proof. reflexivity. Qed.

(** ** Malformed and unknown ids *)

Lemma find_id_none (o : ObjectId) (l : list PostDoc.t) :
  List.find (fun p => String.eqb (PostDoc._id p) o) l = None <->
  (forall p, In p l -> PostDoc._id p <> o).
Proof.
  split.
  - intros Hnone p Hin. apply String.eqb_neq.
    exact (find_none _ _ Hnone p Hin).
  - intros Hall. induction l as [|q l IH]; simpl; [reflexivity |].
    destruct (String.eqb_spec (PostDoc._id q) o) as [Heq|_].
    + exfalso. apply (Hall q); [now left | exact Heq].
    + apply IH. intros p Hin. apply Hall. now right.
Qed.

Lemma get_post_404 `{!Libraries} (req : Request) (st : Store) :
  status (fst (get_post req st)) = 404%nat <->
  exists o, ObjectId_cast (params_id req) = Some o /\
            List.find (fun p => String.eqb (PostDoc._id p) o) (posts st) = None.
Proof.
  unfold get_post, try_catch, mbind, Action_bind, Post.findById.
  destruct (ObjectId_cast (params_id req)) as [o|]; simpl.
  - destruct (List.find _ (posts st)) as [p|] eqn:Hf; simpl.
    + split; [discriminate |]. intros (o' & [= <-] & Hnone). congruence.
    + split; [| reflexivity]. intros _. now exists o.
  - split; [discriminate |]. now intros (o' & Hc & _).
Qed.

Lemma update_post_404 `{!Libraries} (env : Env) (user : Payload) (file : option File)
    (req : Request) (st : Store) :
  status (fst (update_post env user file req st)) = 404%nat <->
  exists o, ObjectId_cast (params_id req) = Some o /\
            List.find (fun p => String.eqb (PostDoc._id p) o) (posts st) = None.
Proof.
  unfold update_post, try_catch, mbind, Action_bind, Post.findById.
  destruct (ObjectId_cast (params_id req)) as [o|]; simpl.
  - destruct (List.find _ (posts st)) as [p|] eqn:Hf; simpl.
    + split; [| intros (o' & [= <-] & Hnone); congruence].
      destruct (negb (String.eqb (PostDoc.author p) (userId user))); simpl;
        [discriminate |].
      unfold Post.save.
      destruct (negb (PostDoc.valid _)); simpl; [discriminate |].
      destruct (Post.isModified p _); simpl; discriminate.
    + split; [| reflexivity]. intros _. now exists o.
  - split; [discriminate |]. now intros (o' & Hc & _).
Qed.

Lemma delete_post_404 `{!Libraries} (user : Payload) (req : Request) (st : Store) :
  status (fst (delete_post user req st)) = 404%nat <->
  exists o, ObjectId_cast (params_id req) = Some o /\
            List.find (fun p => String.eqb (PostDoc._id p) o) (posts st) = None.
Proof.
  unfold delete_post, try_catch, mbind, Action_bind, Post.findById, Post.findByIdAndDelete.
  destruct (ObjectId_cast (params_id req)) as [o|]; simpl.
  - destruct (List.find _ (posts st)) as [p|] eqn:Hf; simpl.
    + split; [| intros (o' & [= <-] & Hnone); congruence].
      destruct (negb (String.eqb (PostDoc.author p) (userId user))); simpl;
        discriminate.
    + split; [| reflexivity]. intros _. now exists o.
  - split; [discriminate |]. now intros (o' & Hc & _).
Qed.

(** C10: when the :id of the request does not cast to an ObjectId, the
    lookup throws the cast error and GetOne, Update and Delete answer 500
    "Server error", not 404, with the store as it was; each of the three
    answers 404 exactly when the id casts to an ObjectId that no stored
    post has. *)
Theorem C10_malformed_id_is_500 `{!Libraries} (env : Env) (user : Payload)
    (file : option File) (req : Request) (st : Store) :
  (ObjectId_cast (params_id req) = None ->
     fst (Post.findById (params_id req) st) = Throw CastError /\
     get_post req st = (json 500 (MessageError "Server error" CastError), st) /\
     update_post env user file req st
       = (json 500 (MessageError "Server error" CastError), st) /\
     delete_post user req st = (json 500 (MessageError "Server error" CastError), st)) /\
  let unknown :=
    exists o, ObjectId_cast (params_id req) = Some o /\
              forall p, In p (posts st) -> PostDoc._id p <> o in
  (status (fst (get_post req st)) = 404%nat <-> unknown) /\
  (status (fst (update_post env user file req st)) = 404%nat <-> unknown) /\
  (status (fst (delete_post user req st)) = 404%nat <-> unknown).
Proof.
  split.
  - intros Hcast.
    unfold get_post, update_post, delete_post, try_catch, mbind, Action_bind, Post.findById.
    rewrite Hcast. repeat split.
  - cbv zeta.
    rewrite get_post_404, update_post_404, delete_post_404.
    repeat split; intros (o & Hc & Hn); exists o; (split; [exact Hc |]);
      now apply find_id_none.
Qed.

Example sample_get_malformed :
  @get_post Sample.libraries
     (mkRequest None "not-an-id" None None None None None None) Sample.store
  = (json 500 (MessageError "Server error" CastError), Sample.store).
Proof. reflexivity. Qed.

Example sample_get_unknown :
  @get_post Sample.libraries
     (mkRequest None "65b0000000000000000000ff" None None None None None None) Sample.store
  = (json 404 (Message "Post not found"), Sample.store).
Proof. reflexivity. Qed.

(** ** The auth guard *)

Lemma split_no_sep (sep : ascii) (s : string) :
  ~ In sep (list_ascii_of_string s) -> JS.split sep s = [s].
Proof.
  induction s as [|c s IH]; simpl; intros Hnot; [reflexivity |].
  destruct (Ascii.eqb_spec c sep) as [->|_].
  - exfalso. apply Hnot. now left.
  - rewrite IH; [reflexivity |]. intros Hin. apply Hnot. now right.
Qed.

Lemma bearer_token_Bearer (token : string) :
  ~ In " "%char (list_ascii_of_string token) ->
  bearer_token (Some ("Bearer " ++ token)) = Some token.
Proof.
  intros Hnot. unfold bearer_token, JS.and, JS.index.
  cbn -[JS.split]. cbv [String.append]. cbn.
  now rewrite (split_no_sep _ _ Hnot).
Qed.

Lemma authenticateToken_cases `{!Libraries} (env : Env) (req : Request)
    (next : Payload -> Handler) (st : Store) :
  authenticateToken env req next st =
    match bearer_token (authorization req) with
    | Some token =>
        if String.eqb token "" then (json 401 (Message "Access token required"), st)
        else match jwt_verify token (secret env) with
             | None => (json 403 (Message "Invalid token"), st)
             | Some user => next user st
             end
    | None => (json 401 (Message "Access token required"), st)
    end.
Proof.
  unfold authenticateToken.
  destruct (bearer_token (authorization req)) as [token|]; simpl; [| reflexivity].
  destruct (String.eqb token ""); simpl; [reflexivity |].
  now destruct (jwt_verify token (secret env)).
Qed.

(** C4: on a protected endpoint, whatever the handler [next] is: when
    the Authorization header yields no token (it is absent, or what
    follows the first space is missing or empty) the answer is 401 and
    the store is as before, so the handler did not run; when the token
    does not verify the answer is 403, again without the handler; when it
    verifies, the result is that of the handler run with the decoded
    identity. A header "Bearer <token>" yields <token>. *)
Theorem C4_auth_guard `{!Libraries} (env : Env) (req : Request)
    (next : Payload -> Handler) (st : Store) :
  (JS.truthy (bearer_token (authorization req)) = false ->
     authenticateToken env req next st = (json 401 (Message "Access token required"), st)) /\
  (forall token, bearer_token (authorization req) = Some token -> token <> "" ->
     jwt_verify token (secret env) = None ->
     authenticateToken env req next st = (json 403 (Message "Invalid token"), st)) /\
  (forall token user, bearer_token (authorization req) = Some token -> token <> "" ->
     jwt_verify token (secret env) = Some user ->
     authenticateToken env req next st = next user st) /\
  (authorization req = None -> JS.truthy (bearer_token (authorization req)) = false) /\
  (forall token, authorization req = Some ("Bearer " ++ token) ->
     ~ In " "%char (list_ascii_of_string token) ->
     bearer_token (authorization req) = Some token).
Proof.
  rewrite authenticateToken_cases. repeat split.
  - destruct (bearer_token (authorization req)) as [token|]; simpl; [| reflexivity].
    now destruct (String.eqb token "").
  - intros token -> Hne Hv. apply String.eqb_neq in Hne. now rewrite Hne, Hv.
  - intros token user -> Hne Hv. apply String.eqb_neq in Hne. now rewrite Hne, Hv.
  - now intros ->.
  - intros token -> Hnot. now apply bearer_token_Bearer.
Qed.

Example sample_guard_no_header :
  @GET_my_posts Sample.libraries Sample.env Sample.request Sample.store
  = (json 401 (Message "Access token required"), Sample.store).
Proof. reflexivity. Qed.

Example sample_guard_bad_token :
  @DELETE_posts_id Sample.libraries Sample.env
     (mkRequest (Some "Bearer 65a000000000000000000001.alice.forged")
                "65b000000000000000000001" None None None None None None) Sample.store
  = (json 403 (Message "Invalid token"), Sample.store).
Proof. reflexivity. Qed.

Example sample_guard_pass :
  @GET_my_posts Sample.libraries Sample.env
     (mkRequest (Some "Bearer 65a000000000000000000001.alice.your-secret-key")
                "" None None None None None None) Sample.store
  = (json 200 (Posts [Sample.hi; Sample.old]), Sample.store).
Proof. reflexivity. Qed.

(** ** Login *)

Lemma findOne_none (email : option string) (st : Store) :
  (forall u, In u (users st) -> Some (UserDoc.email u) <> email) ->
  User.findOne email st = (Ok None, st).
Proof.
  intros Hall. unfold User.findOne. do 2 f_equal.
  destruct (List.find _ (users st)) as [u|] eqn:Hf; [exfalso | reflexivity].
  apply find_some in Hf as [Hin Hm]. apply (Hall u Hin).
  unfold matches in Hm. destruct email as [e|]; [| discriminate].
  apply String.eqb_eq in Hm. now subst.
Qed.




(** C5: a successful login (the user found for the email verifies the
    password) answers 200 with the token signed over the payload
    { userId: user._id, username: user.username } and nothing else, with
    the option expiresIn "24h", and with the user projection
    { id, username, email }; the stored password hash is no part of the
    response, and the store is not changed. *)
Theorem C5_login_success `{!Libraries} (env : Env) (req : Request) (st : Store)
    (u : UserDoc.t) (pw : string) :
  fst (User.findOne (body_email req) st) = Ok (Some u) ->
  body_password req = Some pw ->
  bcrypt_compare pw (UserDoc.password u) = true ->
  login env req st =
    (json 200
       (TokenUser
          (jwt_sign (mkPayload (UserDoc._id u) (UserDoc.username u)) (secret env)
                    (mkSignOptions "24h"))
          (mkPublicUser (UserDoc._id u) (UserDoc.username u) (UserDoc.email u))),
     st).
Proof.
  intros Hsome Hpw Hcmp.
  unfold login, try_catch, mbind, Action_bind.
  unfold User.findOne in *. simpl in Hsome. injection Hsome as Hsome.
  rewrite Hsome, Hpw. simpl. now rewrite Hcmp.
Qed.

Lemma C5_login_success_witness :
  let req := mkRequest None "" None (Some "b@x.com") (Some "pw2") None None None in
  (fst (User.findOne (body_email req) Sample.store) = Ok (Some Sample.bob) /\
   body_password req = Some "pw2" /\
   @bcrypt_compare Sample.libraries "pw2" (UserDoc.password Sample.bob) = true) /\
  @login Sample.libraries Sample.env req Sample.store =
    (json 200
       (TokenUser
          (@jwt_sign Sample.libraries
             (mkPayload (UserDoc._id Sample.bob) (UserDoc.username Sample.bob))
             (secret Sample.env) (mkSignOptions "24h"))
          (mkPublicUser (UserDoc._id Sample.bob) (UserDoc.username Sample.bob)
                        (UserDoc.email Sample.bob))),
     Sample.store).
Proof.
  split; [repeat split |].
  apply (@C5_login_success Sample.libraries _ _ _ Sample.bob "pw2"); reflexivity.
Defined.

(** ** Registration *)

Lemma findOne_or_some (email username : option string) (st : Store) (u : UserDoc.t) :
  In u (users st) ->
  email = Some (UserDoc.email u) \/ username = Some (UserDoc.username u) ->
  exists v, User.findOne_or email username st = (Ok (Some v), st).
Proof.
  intros Hin Hcol. unfold User.findOne_or.
  destruct (List.find _ (users st)) as [v|] eqn:Hf; [now exists v | exfalso].
  pose proof (find_none _ _ Hf u Hin) as Hm. simpl in Hm.
  apply orb_false_iff in Hm as [He Hn].
  destruct Hcol as [-> | ->]; simpl in *; now rewrite String.eqb_refl in *.
Qed.

Lemma findOne_or_none (email username : string) (st : Store) :
  (forall u, In u (users st) -> UserDoc.email u <> email /\ UserDoc.username u <> username) ->
  User.findOne_or (Some email) (Some username) st = (Ok None, st).
Proof.
  intros Hall. unfold User.findOne_or. do 2 f_equal.
  destruct (List.find _ (users st)) as [u|] eqn:Hf; [exfalso | reflexivity].
  apply find_some in Hf as [Hin Hm]. destruct (Hall u Hin) as [He Hn].
  simpl in Hm. apply orb_true_iff in Hm as [Hm|Hm]; apply String.eqb_eq in Hm; congruence.
Qed.

Lemma duplicate_false (username email : string) (st : Store) :
  (forall u, In u (users st) -> UserDoc.email u <> email /\ UserDoc.username u <> username) ->
  User.duplicate username email st = false.
Proof.
  intros Hall. unfold User.duplicate.
  destruct (existsb _ (users st)) eqn:Hex; [exfalso | reflexivity].
  apply existsb_exists in Hex as (u & Hin & Hm). destruct (Hall u Hin) as [He Hn].
  apply orb_true_iff in Hm as [Hm|Hm]; apply String.eqb_eq in Hm; congruence.
Qed.

(** C3 (amended): when a stored user has the email or the username of
    the request, Register answers 400 "User already exists" and the store
    is unchanged. When no stored user has either, the username and the
    email are not empty and the password is a string (with a hash that is
    not empty, as every bcrypt hash is), Register answers 201 and the
    store gains one user whose password field is the bcrypt hash of the
    password with 10 rounds. *)
Theorem C3_register_conflict_or_created `{!Libraries} (env : Env) (req : Request)
    (st : Store) :
  ((exists u, In u (users st) /\
              (body_email req = Some (UserDoc.email u) \/
               body_username req = Some (UserDoc.username u))) ->
     register env req st = (json 400 (Message "User already exists"), st)) /\
  (forall n e p,
     body_username req = Some n -> body_email req = Some e -> body_password req = Some p ->
     (forall u, In u (users st) -> UserDoc.email u <> e /\ UserDoc.username u <> n) ->
     n <> "" -> e <> "" -> bcrypt_hash p 10 <> "" ->
     register env req st =
       (json 201 (Message "User created successfully"),
        mkStore (users st ++ [UserDoc.mk (ObjectId_new env) n e (bcrypt_hash p 10)
                                         (timestamp env) (timestamp env)])
                (posts st))).
Proof.
  split.
  - intros (u & Hin & Hcol).
    destruct (findOne_or_some _ _ st u Hin Hcol) as [v Hv].
    unfold register, try_catch, mbind, Action_bind. now rewrite Hv.
  - intros n e p Hn He Hp Hfree Hn0 He0 Hh0.
    unfold register, try_catch, mbind, Action_bind.
    rewrite Hn, He, Hp, (findOne_or_none e n st Hfree). simpl.
    unfold User.save, checkRequired.
    apply String.eqb_neq in Hn0, He0, Hh0. rewrite Hn0, He0, Hh0.
    now rewrite (duplicate_false n e st Hfree).
Qed.

Lemma C3_register_conflict_or_created_witness :
  let taken := mkRequest None "" (Some "alice") (Some "new@x.com") (Some "pw9")
                         None None None in
  let fresh := mkRequest None "" (Some "carol") (Some "c@x.com") (Some "pw3")
                         None None None in
  @register Sample.libraries Sample.env taken Sample.store
    = (json 400 (Message "User already exists"), Sample.store) /\
  @register Sample.libraries Sample.env fresh Sample.store
    = (json 201 (Message "User created successfully"),
       mkStore (users Sample.store ++
                  [UserDoc.mk (ObjectId_new Sample.env) "carol" "c@x.com"
                     (@bcrypt_hash Sample.libraries "pw3" 10)
                     (timestamp Sample.env) (timestamp Sample.env)])
               (posts Sample.store)).
Proof.
  split.
  - apply (proj1 (@C3_register_conflict_or_created Sample.libraries Sample.env _ Sample.store)).
    exists Sample.alice. split; [now left | now right].
  - apply (proj2 (@C3_register_conflict_or_created Sample.libraries Sample.env _ Sample.store)
             "carol" "c@x.com" "pw3"); try reflexivity; try discriminate.
    intros u [<- | [<- | []]]; split; discriminate.
Defined.

(** C3, as stated, fails: no stored user has the email or the username
    of this request, whose username is the empty string, and Register
    answers 500, not 201, and persists nothing. *)
Lemma C3_register_empty_username_500 :
  let req := mkRequest None "" (Some "") (Some "c@x.com") (Some "pw3") None None None in
  (forall u, In u (users Sample.store) ->
     Some (UserDoc.email u) <> body_email req /\
     Some (UserDoc.username u) <> body_username req) /\
  @register Sample.libraries Sample.env req Sample.store
    = (json 500 (MessageError "Server error" ValidationError), Sample.store) /\
  status (fst (@register Sample.libraries Sample.env req Sample.store)) <> 201%nat.
Proof.
  split; [| split].
  - intros u [<- | [<- | []]]; split; discriminate.
  - reflexivity.
  - discriminate.
Qed.

(** ** Creation *)

(** C7: Create answers 201 exactly when title and content are supplied
    and not empty, the userId of the identity casts to an ObjectId and
    its username is not empty. Then the answer is the created post, the
    store gains exactly that post, and its image is "/uploads/" followed
    by the decimal Date.now() of the upload and the extension of the
    original file name when a file was uploaded, and is absent (null)
    when none was. *)
Theorem C7_create_records_image `{!Libraries} (env : Env) (user : Payload) (req : Request)
    (st : Store) :
  let r := create_post env user (upload_single env req) req st in
  (status (fst r) = 201%nat <->
     JS.truthy (body_title req) = true /\ JS.truthy (body_content req) = true /\
     ObjectId_cast (userId user) <> None /\ username user <> "") /\
  (status (fst r) = 201%nat ->
     exists post,
       fst r = json 201 (OnePost post) /\
       posts (snd r) = (posts st ++ [post])%list /\
       users (snd r) = users st /\
       PostDoc.image post =
         match image_part req with
         | Some name =>
             Some ("/uploads/" ++ (JS.Number_toString (Date_now env) ++ path_extname name))
         | None => None
         end).
Proof.
  cbv zeta.
  unfold create_post, try_catch, mbind, Action_bind, Post.create, upload_single,
    multer_filename, checkRequired, JS.truthy.
  cbv zeta.
  destruct (body_title req) as [t|]; try destruct (String.eqb t "") eqn:Ht;
  destruct (body_content req) as [c|]; try destruct (String.eqb c "") eqn:Hc;
  destruct (ObjectId_cast (userId user)) as [a|];
  destruct (String.eqb_spec (username user) "") as [Hn|Hn];
  simpl fst; simpl snd; simpl status; simpl negb;
  (split; [split; [intros Hs | intros (H1 & H2 & H3 & H4)] | intros Hs]);
  try discriminate; try congruence.
  - repeat split; congruence.
  - eexists. split; [reflexivity |]. repeat split.
    simpl. now destruct (image_part req).
Qed.

Example sample_create :
  @POST_posts Sample.libraries Sample.env
     (mkRequest (Some "Bearer 65a000000000000000000001.alice.your-secret-key") ""
                None None None (Some "Cat") (Some "Meow") (Some "my.cat.JPG"))
     Sample.store
  = (json 201 (OnePost (PostDoc.mk "65a000000000000000000003" "Cat" "Meow"
                          (Some "/uploads/1700000000000.JPG") Sample.alice_id "alice"
                          1700000000123 1700000000123)),
     mkStore [Sample.alice; Sample.bob]
       [Sample.hi; Sample.news; Sample.old;
        PostDoc.mk "65a000000000000000000003" "Cat" "Meow"
          (Some "/uploads/1700000000000.JPG") Sample.alice_id "alice"
          1700000000123 1700000000123]).
Proof. reflexivity. Qed.

Example sample_create_no_image :
  fst (@create_post Sample.libraries Sample.env (mkPayload Sample.alice_id "alice") None
         (mkRequest None "" None None None (Some "Cat") (Some "Meow") None) Sample.store)
  = json 201 (OnePost (PostDoc.mk "65a000000000000000000003" "Cat" "Meow" None
                         Sample.alice_id "alice" 1700000000123 1700000000123)).
Proof. reflexivity. Qed.

(** ** The stored posts always meet the schema *)

Lemma replace_Forall (Q : PostDoc.t -> Prop) (p : PostDoc.t) (l : list PostDoc.t) :
  Q p -> Forall Q l -> Forall Q (Post.replace p l).
Proof.
  intros Hp. induction 1 as [|q l Hq Hl IH]; simpl; [constructor |].
  destruct (String.eqb (PostDoc._id q) (PostDoc._id p)); now constructor.
Qed.

Lemma remove_Forall (Q : PostDoc.t -> Prop) (o : ObjectId) (l : list PostDoc.t) :
  Forall Q l -> Forall Q (Post.remove o l).
Proof.
  induction 1 as [|q l Hq Hl IH]; simpl; [constructor |].
  destruct (String.eqb (PostDoc._id q) o); [assumption | now constructor].
Qed.

Lemma create_post_schema_ok `{!Libraries} (env : Env) (user : Payload) (file : option File)
    (req : Request) (st : Store) :
  schema_ok st -> schema_ok (snd (create_post env user file req st)).
Proof.
  unfold schema_ok, create_post, try_catch, mbind, Action_bind, Post.create, checkRequired.
  cbv zeta. intros Hok.
  destruct (body_title req) as [t|]; try destruct (String.eqb t "") eqn:Ht;
  destruct (body_content req) as [c|]; try destruct (String.eqb c "") eqn:Hc;
  destruct (ObjectId_cast (userId user)) as [a|];
  destruct (String.eqb (username user) "") eqn:Hn;
  simpl; try exact Hok.
  apply Forall_app. split; [exact Hok |]. constructor; [| constructor].
  unfold PostDoc.valid. simpl. now rewrite Ht, Hc, Hn.
Qed.

Lemma update_post_schema_ok `{!Libraries} (env : Env) (user : Payload) (file : option File)
    (req : Request) (st : Store) :
  schema_ok st -> schema_ok (snd (update_post env user file req st)).
Proof.
  unfold schema_ok, update_post, try_catch, mbind, Action_bind, Post.findById. intros Hok.
  destruct (ObjectId_cast (params_id req)) as [o|]; simpl; [| exact Hok].
  destruct (List.find _ (posts st)) as [p|]; simpl; [| exact Hok].
  destruct (negb (String.eqb (PostDoc.author p) (userId user))); simpl; [exact Hok |].
  unfold Post.save.
  destruct (PostDoc.valid (assign p (body_title req) (body_content req) file)) eqn:Hv;
    simpl; [| exact Hok].
  destruct (Post.isModified p _); simpl; [| exact Hok].
  apply replace_Forall; [exact Hv | exact Hok].
Qed.

Lemma delete_post_schema_ok `{!Libraries} (user : Payload) (req : Request) (st : Store) :
  schema_ok st -> schema_ok (snd (delete_post user req st)).
Proof.
  unfold schema_ok, delete_post, try_catch, mbind, Action_bind, Post.findById,
    Post.findByIdAndDelete. intros Hok.
  destruct (ObjectId_cast (params_id req)) as [o|]; simpl; [| exact Hok].
  destruct (List.find _ (posts st)) as [p|]; simpl; [| exact Hok].
  destruct (negb (String.eqb (PostDoc.author p) (userId user))); simpl; [exact Hok |].
  now apply remove_Forall.
Qed.

Lemma register_posts `{!Libraries} (env : Env) (req : Request) (st : Store) :
  posts (snd (register env req st)) = posts st.
Proof.
  unfold register, try_catch, mbind, Action_bind, User.findOne_or, bcrypt_hash_js,
    User.save. cbv zeta.
  destruct (List.find _ (users st)); simpl; [reflexivity |].
  destruct (body_password req) as [p|]; simpl; [| reflexivity].
  destruct (checkRequired (body_username req)); simpl; [| reflexivity].
  destruct (checkRequired (body_email req)); simpl; [| reflexivity].
  destruct (String.eqb (bcrypt_hash p 10) ""); simpl; [reflexivity |].
  now destruct (User.duplicate _ _ st).
Qed.

(** ** The protected routes, once the guard has passed *)

Lemma routes_after_guard `{!Libraries} (env : Env) (req : Request) (st : Store)
    (token : string) (user : Payload) :
  bearer_token (authorization req) = Some token -> token <> "" ->
  jwt_verify token (secret env) = Some user ->
  GET_my_posts env req st = my_posts user st /\
  POST_posts env req st = create_post env user (upload_single env req) req st /\
  PUT_posts_id env req st = update_post env user (upload_single env req) req st /\
  DELETE_posts_id env req st = delete_post user req st.
Proof.
  intros Htok Hne Hv. apply String.eqb_neq in Hne.
  unfold GET_my_posts, POST_posts, PUT_posts_id, DELETE_posts_id.
  rewrite !authenticateToken_cases, Htok, Hne, Hv. repeat split.
Qed.

(** ** What a registration changes *)

Lemma register_cases `{!Libraries} (env : Env) (req : Request) (st : Store) :
  (status (fst (register env req st)) <> 201%nat /\ snd (register env req st) = st) \/
  (exists n e p,
     body_username req = Some n /\ body_email req = Some e /\ body_password req = Some p /\
     n <> "" /\ e <> "" /\ bcrypt_hash p 10 <> "" /\
     (forall u, In u (users st) -> UserDoc.email u <> e /\ UserDoc.username u <> n) /\
     register env req st =
       (json 201 (Message "User created successfully"),
        mkStore (users st ++ [UserDoc.mk (ObjectId_new env) n e (bcrypt_hash p 10)
                                         (timestamp env) (timestamp env)])
                (posts st))).
Proof.
  unfold register, try_catch, mbind, Action_bind, User.findOne_or, bcrypt_hash_js,
    User.save, checkRequired. cbv zeta.
  destruct (List.find _ (users st)) as [v|] eqn:Hfind; simpl; [left; now split |].
  destruct (body_password req) as [p|]; simpl; [| left; now split].
  destruct (body_username req) as [n|]; simpl; [| left; now split].
  destruct (String.eqb_spec n "") as [_|Hn]; simpl; [left; now split |].
  destruct (body_email req) as [e|]; simpl; [| left; now split].
  destruct (String.eqb_spec e "") as [_|He]; simpl; [left; now split |].
  destruct (String.eqb_spec (bcrypt_hash p 10) "") as [_|Hh]; simpl; [left; now split |].
  destruct (User.duplicate n e st) eqn:Hdup; simpl; [left; now split |].
  right. exists n, e, p.
  do 6 (split; [first [reflexivity | assumption] |]). split; [| reflexivity].
  intros u Hin. pose proof (find_none _ _ Hfind u Hin) as Hm. simpl in Hm.
  apply orb_false_iff in Hm as [Hm1 Hm2]. apply String.eqb_neq in Hm1, Hm2.
  split; congruence.
Qed.

Lemma create_post_cases `{!Libraries} (env : Env) (user : Payload) (file : option File)
    (req : Request) (st : Store) :
  (status (fst (create_post env user file req st)) <> 201%nat /\
   snd (create_post env user file req st) = st) \/
  (exists t c a,
     body_title req = Some t /\ body_content req = Some c /\
     t <> "" /\ c <> "" /\ username user <> "" /\
     ObjectId_cast (userId user) = Some a /\
     let post :=
       PostDoc.mk (ObjectId_new env) t c
         (match file with Some f => Some ("/uploads/" ++ filename f) | None => None end)
         a (username user) (timestamp env) (timestamp env) in
     create_post env user file req st =
       (json 201 (OnePost post), mkStore (users st) (posts st ++ [post]))).
Proof.
  unfold create_post, try_catch, mbind, Action_bind, Post.create, checkRequired. cbv zeta.
  destruct (body_title req) as [t|]; simpl; [| left; now split].
  destruct (String.eqb_spec t "") as [_|Ht]; simpl; [left; now split |].
  destruct (body_content req) as [c|]; simpl; [| left; now split].
  destruct (String.eqb_spec c "") as [_|Hc]; simpl; [left; now split |].
  destruct (ObjectId_cast (userId user)) as [a|]; simpl; [| left; now split].
  destruct (String.eqb_spec (username user) "") as [_|Hn]; simpl; [left; now split |].
  right. exists t, c, a. repeat split; assumption.
Qed.

Lemma update_post_store `{!Libraries} (env : Env) (user : Payload) (file : option File)
    (req : Request) (st : Store) :
  snd (update_post env user file req st) = st \/
  (exists o P P',
     ObjectId_cast (params_id req) = Some o /\
     List.find (fun p => String.eqb (PostDoc._id p) o) (posts st) = Some P /\
     PostDoc._id P' = PostDoc._id P /\
     PostDoc.valid P' = true /\
     update_post env user file req st =
       (json 200 (OnePost P'), mkStore (users st) (Post.replace P' (posts st)))).
Proof.
  unfold update_post, try_catch, mbind, Action_bind, Post.findById.
  destruct (ObjectId_cast (params_id req)) as [o|]; simpl; [| now left].
  destruct (List.find _ (posts st)) as [P|] eqn:Hfind; simpl; [| now left].
  destruct (negb (String.eqb (PostDoc.author P) (userId user))); simpl; [now left |].
  unfold Post.save.
  destruct (PostDoc.valid (assign P (body_title req) (body_content req) file)) eqn:Hv;
    simpl; [| now left].
  destruct (Post.isModified P _); simpl; [| now left].
  right. eexists o, P, _.
  split; [reflexivity |]. split; [exact Hfind |]. split; [| split; [| reflexivity]].
  - reflexivity.
  - exact Hv.
Qed.

Lemma update_post_failure `{!Libraries} (env : Env) (user : Payload) (file : option File)
    (req : Request) (st : Store) :
  status (fst (update_post env user file req st)) <> 200%nat ->
  snd (update_post env user file req st) = st.
Proof.
  intros Hs. destruct (update_post_store env user file req st)
    as [Hst | (o & P & P' & _ & _ & _ & _ & Hrun)]; [exact Hst |].
  rewrite Hrun in Hs. now contradict Hs.
Qed.

Lemma delete_post_store `{!Libraries} (user : Payload) (req : Request) (st : Store) :
  (status (fst (delete_post user req st)) <> 200%nat /\ snd (delete_post user req st) = st) \/
  (exists o P,
     ObjectId_cast (params_id req) = Some o /\
     List.find (fun p => String.eqb (PostDoc._id p) o) (posts st) = Some P /\
     PostDoc.author P = userId user /\
     delete_post user req st =
       (json 200 (Message "Post deleted successfully"),
        mkStore (users st) (Post.remove o (posts st)))).
Proof.
  unfold delete_post, try_catch, mbind, Action_bind, Post.findById, Post.findByIdAndDelete.
  destruct (ObjectId_cast (params_id req)) as [o|]; simpl; [| left; now split].
  destruct (List.find _ (posts st)) as [P|] eqn:Hfind; simpl; [| left; now split].
  destruct (String.eqb_spec (PostDoc.author P) (userId user)) as [Ha|_]; simpl;
    [| left; now split].
  right. exists o, P. repeat split; assumption.
Qed.

Lemma read_only `{!Libraries} (env : Env) (user : Payload) (req : Request) (st : Store) :
  snd (login env req st) = st /\ snd (list_posts st) = st /\
  snd (get_post req st) = st /\ snd (my_posts user st) = st.
Proof.
  repeat split.
  - unfold login, try_catch, mbind, Action_bind, User.findOne, bcrypt_compare_js. cbv zeta.
    destruct (List.find _ (users st)) as [u|]; simpl; [| reflexivity].
    destruct (body_password req) as [p|]; simpl; [| reflexivity].
    now destruct (bcrypt_compare p (UserDoc.password u)).
  - unfold get_post, try_catch, mbind, Action_bind, Post.findById.
    destruct (ObjectId_cast (params_id req)); simpl; [| reflexivity].
    now destruct (List.find _ (posts st)).
  - unfold my_posts, try_catch, mbind, Action_bind, Post.find_by_author_sorted.
    now destruct (ObjectId_cast (userId user)).
Qed.

(** X1: a handler that does not succeed leaves the two collections as
    they were. The users and the posts are unchanged after Register and
    Create unless they answer 201, and after Update and Delete unless they
    answer 200; Login, ListAll, GetOne and ListMine never change them,
    whatever they answer. (The file upload.single stored before the
    handler ran is no part of the collections, and no handler removes
    it.) *)
Theorem failed_handlers_keep_collections `{!Libraries} (env : Env) (user : Payload)
    (file : option File) (req : Request) (st : Store) :
  (status (fst (register env req st)) <> 201%nat -> snd (register env req st) = st) /\
  (status (fst (create_post env user file req st)) <> 201%nat ->
     snd (create_post env user file req st) = st) /\
  (status (fst (update_post env user file req st)) <> 200%nat ->
     snd (update_post env user file req st) = st) /\
  (status (fst (delete_post user req st)) <> 200%nat -> snd (delete_post user req st) = st) /\
  snd (login env req st) = st /\ snd (list_posts st) = st /\
  snd (get_post req st) = st /\ snd (my_posts user st) = st.
Proof.
  split; [| split; [| split; [| split]]].
  - destruct (register_cases env req st) as [[_ Hst] | (n & e & p & Hrun)]; [easy |].
    destruct Hrun as (_ & _ & _ & _ & _ & _ & _ & Hrun). rewrite Hrun. now intros [].
  - destruct (create_post_cases env user file req st) as [[_ Hst] | (t & c & a & Hrun)];
      [easy |].
    destruct Hrun as (_ & _ & _ & _ & _ & _ & Hrun). cbv zeta in Hrun.
    rewrite Hrun. now intros [].
  - apply update_post_failure.
  - destruct (delete_post_store user req st) as [[_ Hst] | (o & P & _ & _ & _ & Hrun)];
      [easy |].
    rewrite Hrun. now intros [].
  - apply read_only.
Qed.

(** ** Invariants of the two collections *)

Lemma NoDup_snoc {A} (x : A) (l : list A) :
  ~ In x l -> List.NoDup l -> List.NoDup (l ++ [x]).
Proof.
  intros Hx Hl. apply (Permutation_NoDup (Permutation_cons_append l x)).
  now constructor.
Qed.

Lemma post_handlers_users `{!Libraries} (env : Env) (user : Payload) (file : option File)
    (req : Request) (st : Store) :
  users (snd (create_post env user file req st)) = users st /\
  users (snd (update_post env user file req st)) = users st /\
  users (snd (delete_post user req st)) = users st.
Proof.
  repeat split.
  - destruct (create_post_cases env user file req st) as [[_ ->] | (t & c & a & Hrun)];
      [reflexivity |].
    destruct Hrun as (_ & _ & _ & _ & _ & _ & Hrun). cbv zeta in Hrun. now rewrite Hrun.
  - destruct (update_post_store env user file req st)
      as [-> | (o & P & P' & _ & _ & _ & _ & Hrun)]; [reflexivity | now rewrite Hrun].
  - destruct (delete_post_store user req st) as [[_ ->] | (o & P & _ & _ & _ & Hrun)];
      [reflexivity | now rewrite Hrun].
Qed.

Lemma register_users_ok `{!Libraries} (env : Env) (req : Request) (st : Store) :
  users_ok st -> users_ok (snd (register env req st)).
Proof.
  intros (Hn & He & Hf).
  destruct (register_cases env req st)
    as [[_ ->] | (n & e & p & _ & _ & _ & Hn0 & He0 & Hh0 & Hfree & ->)];
    [now repeat split |].
  unfold users_ok. simpl. rewrite !map_app. simpl. repeat split.
  - apply NoDup_snoc; [| exact Hn].
    intros Hin. apply in_map_iff in Hin as (u & Heq & Hu).
    now destruct (Hfree u Hu) as [_ Hne].
  - apply NoDup_snoc; [| exact He].
    intros Hin. apply in_map_iff in Hin as (u & Heq & Hu).
    now destruct (Hfree u Hu) as [Hne _].
  - apply Forall_app. split; [exact Hf |]. now repeat constructor.
Qed.

(** X2: when the stored users have pairwise different usernames,
    pairwise different emails and no empty username, email or password,
    the same holds of the store after any of the eight handlers: Register
    only ever adds a user that keeps it so, and no other handler touches
    the users. *)
Theorem users_stay_unique `{!Libraries} (env : Env) (user : Payload) (file : option File)
    (req : Request) (st : Store) :
  users_ok st ->
  users_ok (snd (register env req st)) /\
  users_ok (snd (login env req st)) /\
  users_ok (snd (list_posts st)) /\
  users_ok (snd (get_post req st)) /\
  users_ok (snd (my_posts user st)) /\
  users_ok (snd (create_post env user file req st)) /\
  users_ok (snd (update_post env user file req st)) /\
  users_ok (snd (delete_post user req st)).
Proof.
  intros Hok.
  destruct (read_only env user req st) as (-> & -> & -> & ->).
  destruct (post_handlers_users env user file req st) as (Hc & Hu & Hd).
  unfold users_ok in *. rewrite Hc, Hu, Hd.
  repeat split; try apply Hok; now apply register_users_ok.
Qed.

Lemma sample_users_ok : users_ok Sample.store.
Proof.
  unfold users_ok. simpl. repeat split.
  - repeat constructor; simpl; intuition discriminate.
  - repeat constructor; simpl; intuition discriminate.
  - repeat constructor; discriminate.
Defined.

Lemma users_stay_unique_witness :
  let req := mkRequest None "65b000000000000000000001" (Some "carol") (Some "c@x.com")
                       (Some "pw3") (Some "T") (Some "C") None in
  let user := mkPayload Sample.alice_id "alice" in
  users_ok Sample.store /\
  users_ok (snd (@register Sample.libraries Sample.env req Sample.store)) /\
  users_ok (snd (@login Sample.libraries Sample.env req Sample.store)) /\
  users_ok (snd (list_posts Sample.store)) /\
  users_ok (snd (@get_post Sample.libraries req Sample.store)) /\
  users_ok (snd (@my_posts Sample.libraries user Sample.store)) /\
  users_ok (snd (@create_post Sample.libraries Sample.env user None req Sample.store)) /\
  users_ok (snd (@update_post Sample.libraries Sample.env user None req Sample.store)) /\
  users_ok (snd (@delete_post Sample.libraries user req Sample.store)).
Proof.
  split; [exact sample_users_ok |].
  apply (@users_stay_unique Sample.libraries). exact sample_users_ok.
Defined.

Lemma replace_ids (p : PostDoc.t) (l : list PostDoc.t) :
  map PostDoc._id (Post.replace p l) = map PostDoc._id l.
Proof.
  induction l as [|q l IH]; simpl; [reflexivity |].
  destruct (String.eqb_spec (PostDoc._id q) (PostDoc._id p)) as [Heq|_]; simpl.
  - now rewrite Heq.
  - now rewrite IH.
Qed.

Lemma remove_In (o : ObjectId) (q : PostDoc.t) (l : list PostDoc.t) :
  In q (Post.remove o l) -> In q l.
Proof.
  induction l as [|r l IH]; simpl; [easy |].
  destruct (String.eqb (PostDoc._id r) o); simpl; [now right |].
  intros [<- | Hin]; [now left | right; now apply IH].
Qed.

Lemma remove_ids_NoDup (o : ObjectId) (l : list PostDoc.t) :
  List.NoDup (map PostDoc._id l) -> List.NoDup (map PostDoc._id (Post.remove o l)).
Proof.
  induction l as [|r l IH]; simpl; [easy |].
  intros Hnd. apply NoDup_cons_iff in Hnd as [Hr Hl].
  destruct (String.eqb (PostDoc._id r) o); simpl; [exact Hl |].
  constructor; [| now apply IH].
  intros Hin. apply Hr. apply in_map_iff in Hin as (q & Heq & Hq).
  apply in_map_iff. exists q. split; [exact Heq |]. now apply remove_In in Hq.
Qed.

(** X3: when every stored post has a non-empty title, content and
    authorName and the post ids are pairwise different, the same holds
    after Update and after Delete, and Update leaves the sequence of ids
    as it was; it also holds after Create, provided the id generated for
    the new post is not the id of a stored post. *)
Theorem posts_stay_well_formed `{!Libraries} (env : Env) (user : Payload)
    (file : option File) (req : Request) (st : Store) :
  schema_ok st -> ids_unique st ->
  (schema_ok (snd (update_post env user file req st)) /\
   ids_unique (snd (update_post env user file req st)) /\
   map PostDoc._id (posts (snd (update_post env user file req st)))
     = map PostDoc._id (posts st)) /\
  (schema_ok (snd (delete_post user req st)) /\
   ids_unique (snd (delete_post user req st))) /\
  (schema_ok (snd (create_post env user file req st)) /\
   (~ In (ObjectId_new env) (map PostDoc._id (posts st)) ->
    ids_unique (snd (create_post env user file req st)))).
Proof.
  intros Hok Hids. split; [| split].
  - assert (Hmap : map PostDoc._id (posts (snd (update_post env user file req st)))
                   = map PostDoc._id (posts st)).
    { destruct (update_post_store env user file req st)
        as [-> | (o & P & P' & _ & _ & _ & _ & ->)]; [reflexivity | apply replace_ids]. }
    split; [now apply update_post_schema_ok |].
    split; [| exact Hmap]. unfold ids_unique. now rewrite Hmap.
  - split; [now apply delete_post_schema_ok |].
    destruct (delete_post_store user req st) as [[_ ->] | (o & P & _ & _ & _ & ->)];
      [exact Hids |].
    now apply remove_ids_NoDup.
  - split; [now apply create_post_schema_ok |]. intros Hfresh.
    destruct (create_post_cases env user file req st) as [[_ ->] | (t & c & a & Hrun)];
      [exact Hids |].
    destruct Hrun as (_ & _ & _ & _ & _ & _ & Hrun). cbv zeta in Hrun. rewrite Hrun.
    unfold ids_unique. simpl. rewrite map_app. simpl. now apply NoDup_snoc.
Qed.

Lemma sample_posts_ok : schema_ok Sample.store /\ ids_unique Sample.store.
Proof.
  split.
  - repeat constructor.
  - unfold ids_unique. simpl. repeat constructor; simpl; intuition discriminate.
Defined.

Lemma posts_stay_well_formed_witness :
  let req := mkRequest None "65b000000000000000000001" None None None (Some "T") (Some "C")
                       None in
  let user := mkPayload Sample.alice_id "alice" in
  (schema_ok Sample.store /\ ids_unique Sample.store) /\
  (schema_ok (snd (@update_post Sample.libraries Sample.env user None req Sample.store)) /\
   ids_unique (snd (@update_post Sample.libraries Sample.env user None req Sample.store)) /\
   map PostDoc._id
       (posts (snd (@update_post Sample.libraries Sample.env user None req Sample.store)))
     = map PostDoc._id (posts Sample.store)) /\
  (schema_ok (snd (@delete_post Sample.libraries user req Sample.store)) /\
   ids_unique (snd (@delete_post Sample.libraries user req Sample.store))) /\
  (schema_ok (snd (@create_post Sample.libraries Sample.env user None req Sample.store)) /\
   (~ In (ObjectId_new Sample.env) (map PostDoc._id (posts Sample.store)) ->
    ids_unique (snd (@create_post Sample.libraries Sample.env user None req Sample.store)))).
Proof.
  split; [exact sample_posts_ok |].
  apply (@posts_stay_well_formed Sample.libraries); apply sample_posts_ok.
Defined.

(** ** Registration, login and the guard together *)

Lemma find_snoc {A} (f : A -> bool) (l : list A) (x : A) :
  (forall y, In y l -> f y = false) -> f x = true -> List.find f (l ++ [x]) = Some x.
Proof.
  intros Hl Hx. induction l as [|y l IH]; simpl.
  - now rewrite Hx.
  - rewrite (Hl y (or_introl eq_refl)). apply IH. intros z Hz. apply Hl. now right.
Qed.

(** X4: a user who has just registered can log in. When Register
    answers 201 for (username, email, password) and bcrypt.compare accepts
    the password against the hash bcrypt.hash made of it, a Login with
    that email and password on the resulting store answers 200, with the
    token signed for the new user's id and username and the projection
    { id, username, email } of the new user. *)
Theorem register_then_login `{!Libraries} (env env' : Env) (req req' : Request) (st : Store)
    (n e p : string) :
  body_username req = Some n -> body_email req = Some e -> body_password req = Some p ->
  status (fst (register env req st)) = 201%nat ->
  body_email req' = Some e -> body_password req' = Some p ->
  bcrypt_compare p (bcrypt_hash p 10) = true ->
  login env' req' (snd (register env req st)) =
    (json 200
       (TokenUser
          (jwt_sign (mkPayload (ObjectId_new env) n) (secret env') (mkSignOptions "24h"))
          (mkPublicUser (ObjectId_new env) n e)),
     snd (register env req st)).
Proof.
  intros Hn He Hp Hs He' Hp' Hcmp.
  destruct (register_cases env req st)
    as [[Hne _] | (n0 & e0 & p0 & Hn0 & He0 & Hp0 & _ & _ & _ & Hfree & Hrun)];
    [contradiction |].
  assert (n0 = n) as -> by congruence.
  assert (e0 = e) as -> by congruence.
  assert (p0 = p) as -> by congruence.
  rewrite Hrun. simpl snd.
  unfold login, try_catch, mbind, Action_bind, User.findOne. cbv zeta.
  rewrite He', Hp'. cbn [users].
  rewrite find_snoc; simpl.
  - unfold bcrypt_compare_js, mret, Action_ret. now rewrite Hcmp.
  - intros u Hu. destruct (Hfree u Hu) as [Hne _]. apply String.eqb_neq. congruence.
  - apply String.eqb_refl.
Qed.

Lemma register_then_login_witness :
  let req := mkRequest None "" (Some "carol") (Some "c@x.com") (Some "pw3")
                       None None None in
  let st' := snd (@register Sample.libraries Sample.env req Sample.store) in
  (status (fst (@register Sample.libraries Sample.env req Sample.store)) = 201%nat /\
   @bcrypt_compare Sample.libraries "pw3" (@bcrypt_hash Sample.libraries "pw3" 10) = true) /\
  @login Sample.libraries Sample.env req st' =
    (json 200
       (TokenUser
          (@jwt_sign Sample.libraries (mkPayload (ObjectId_new Sample.env) "carol")
             (secret Sample.env) (mkSignOptions "24h"))
          (mkPublicUser (ObjectId_new Sample.env) "carol" "c@x.com")),
     st').
Proof.
  split; [split; reflexivity |].
  apply (@register_then_login Sample.libraries Sample.env Sample.env _ _ Sample.store
           "carol" "c@x.com" "pw3"); reflexivity.
Defined.

(** X5: a Login that carries no password tells a known email from an
    unknown one. When a stored user has the email, bcrypt.compare rejects
    the missing password and the catch block answers 500; when no stored
    user has it, the answer is 400 "Invalid credentials". *)
Theorem login_without_password `{!Libraries} (env : Env) (req : Request) (st : Store) :
  body_password req = None ->
  ((exists u, In u (users st) /\ body_email req = Some (UserDoc.email u)) ->
     login env req st = (json 500 (MessageError "Server error" IllegalArguments), st)) /\
  ((forall u, In u (users st) -> Some (UserDoc.email u) <> body_email req) ->
     login env req st = (json 400 (Message "Invalid credentials"), st)).
Proof.
  intros Hp. split.
  - intros (u & Hu & He).
    unfold login, try_catch, mbind, Action_bind, User.findOne. cbv zeta.
    rewrite Hp. destruct (List.find _ (users st)) as [v|] eqn:Hfind; [reflexivity |].
    pose proof (find_none _ _ Hfind u Hu) as Hm. rewrite He in Hm. simpl in Hm.
    now rewrite String.eqb_refl in Hm.
  - intros Hnone. unfold login, try_catch, mbind, Action_bind.
    now rewrite (findOne_none _ _ Hnone).
Qed.

Lemma login_without_password_witness :
  let known := mkRequest None "" None (Some "a@x.com") None None None None in
  let unknown := mkRequest None "" None (Some "z@x.com") None None None None in
  @login Sample.libraries Sample.env known Sample.store
    = (json 500 (MessageError "Server error" IllegalArguments), Sample.store) /\
  @login Sample.libraries Sample.env unknown Sample.store
    = (json 400 (Message "Invalid credentials"), Sample.store).
Proof.
  split.
  - apply (proj1 (@login_without_password Sample.libraries Sample.env
                    (mkRequest None "" None (Some "a@x.com") None None None None)
                    Sample.store eq_refl)).
    exists Sample.alice. split; [now left | reflexivity].
  - apply (proj2 (@login_without_password Sample.libraries Sample.env
                    (mkRequest None "" None (Some "z@x.com") None None None None)
                    Sample.store eq_refl)).
    intros u [<- | [<- | []]]; discriminate.
Defined.

Lemma login_200 `{!Libraries} (env : Env) (req : Request) (st : Store) (token : string)
    (pu : PublicUser) :
  fst (login env req st) = json 200 (TokenUser token pu) ->
  exists u pw,
    In u (users st) /\ body_email req = Some (UserDoc.email u) /\
    body_password req = Some pw /\ bcrypt_compare pw (UserDoc.password u) = true /\
    token = jwt_sign (mkPayload (UserDoc._id u) (UserDoc.username u)) (secret env)
                     (mkSignOptions "24h") /\
    pu = mkPublicUser (UserDoc._id u) (UserDoc.username u) (UserDoc.email u).
Proof.
  unfold login, try_catch, mbind, Action_bind, User.findOne, bcrypt_compare_js. cbv zeta.
  destruct (List.find _ (users st)) as [u|] eqn:Hfind; simpl; [| discriminate].
  destruct (body_password req) as [pw|]; simpl; [| discriminate].
  destruct (bcrypt_compare pw (UserDoc.password u)) eqn:Hcmp; simpl; [| discriminate].
  intros [= <- <-]. exists u, pw.
  apply find_some in Hfind as [Hin Hm]. unfold matches in Hm.
  destruct (body_email req) as [e|]; [| discriminate].
  apply String.eqb_eq in Hm. subst e. repeat split; assumption.
Qed.

(** X6: the token a successful Login returns opens the protected
    routes as that user. When jwt.verify, under the secret of the
    process, gives back the payload jwt.sign was given, and the token is
    not empty and has no space, a later request with the header
    "Bearer <token>" passes the guard and runs the handler with the id and
    username of a stored user, the one whose email the login named. *)
Theorem login_token_authenticates `{!Libraries} (env : Env) (req req' : Request)
    (st st' : Store) (token : string) (pu : PublicUser) (next : Payload -> Handler) :
  fst (login env req st) = json 200 (TokenUser token pu) ->
  jwt_verify (jwt_sign (mkPayload (id pu) (pu_username pu)) (secret env)
                       (mkSignOptions "24h")) (secret env)
    = Some (mkPayload (id pu) (pu_username pu)) ->
  token <> "" -> ~ In " "%char (list_ascii_of_string token) ->
  authorization req' = Some ("Bearer " ++ token) ->
  authenticateToken env req' next st' = next (mkPayload (id pu) (pu_username pu)) st' /\
  exists u, In u (users st) /\ UserDoc._id u = id pu /\
            UserDoc.username u = pu_username pu /\ body_email req = Some (UserDoc.email u).
Proof.
  intros Hlogin Hlaw Hne Hsp Hhdr.
  destruct (login_200 env req st token pu Hlogin)
    as (u & pw & Hin & He & _ & _ & Htok & Hpu).
  subst pu. simpl in *. split.
  - rewrite authenticateToken_cases, Hhdr, (bearer_token_Bearer token Hsp).
    apply String.eqb_neq in Hne. now rewrite Hne, Htok, Hlaw.
  - now exists u.
Qed.

Lemma login_token_authenticates_witness :
  let req := mkRequest None "" None (Some "a@x.com") (Some "pw1") None None None in
  let token := "65a000000000000000000001.alice.your-secret-key" in
  let pu := mkPublicUser Sample.alice_id "alice" "a@x.com" in
  let req' := mkRequest (Some ("Bearer " ++ token)) "" None None None None None None in
  fst (@login Sample.libraries Sample.env req Sample.store) = json 200 (TokenUser token pu) /\
  @authenticateToken Sample.libraries Sample.env req' (fun user => @my_posts Sample.libraries user)
     Sample.store
    = @my_posts Sample.libraries (mkPayload (id pu) (pu_username pu)) Sample.store /\
  exists u, In u (users Sample.store) /\ UserDoc._id u = id pu /\
            UserDoc.username u = pu_username pu /\ body_email req = Some (UserDoc.email u).
Proof.
  split; [reflexivity |].
  apply (@login_token_authenticates Sample.libraries Sample.env
           (mkRequest None "" None (Some "a@x.com") (Some "pw1") None None None) _
           Sample.store Sample.store "65a000000000000000000001.alice.your-secret-key"
           (mkPublicUser Sample.alice_id "alice" "a@x.com")).
  - reflexivity.
  - reflexivity.
  - discriminate.
  - vm_compute. intuition discriminate.
  - reflexivity.
Defined.

(** ** Create, update and delete seen through the read endpoints *)

Lemma find_id_snoc (o : ObjectId) (l : list PostDoc.t) (p : PostDoc.t) :
  ~ In o (map PostDoc._id l) -> PostDoc._id p = o ->
  List.find (fun q => String.eqb (PostDoc._id q) o) (l ++ [p]) = Some p.
Proof.
  intros Hfresh Hid. apply find_snoc.
  - intros q Hq. apply String.eqb_neq. intros Heq. apply Hfresh.
    apply in_map_iff. now exists q.
  - subst o. apply String.eqb_refl.
Qed.

(** X7: a post that was created can be read back. When Create answers
    201, the generated id casts to itself as an ObjectId and no stored
    post had it, then on the resulting store GetOne with that id answers
    200 with the created post, ListAll contains it, and ListMine of the
    creating identity contains it; its author is the ObjectId of the
    creator's userId and its authorName is the creator's username. *)
Theorem create_then_read `{!Libraries} (env : Env) (user : Payload) (file : option File)
    (req req' : Request) (st : Store) :
  status (fst (create_post env user file req st)) = 201%nat ->
  ObjectId_cast (ObjectId_new env) = Some (ObjectId_new env) ->
  ~ In (ObjectId_new env) (map PostDoc._id (posts st)) ->
  params_id req' = ObjectId_new env ->
  let st' := snd (create_post env user file req st) in
  exists post,
    fst (create_post env user file req st) = json 201 (OnePost post) /\
    ObjectId_cast (userId user) = Some (PostDoc.author post) /\
    PostDoc.authorName post = username user /\
    get_post req' st' = (json 200 (OnePost post), st') /\
    (exists l, list_posts st' = (json 200 (Posts l), st') /\ In post l) /\
    (exists l, my_posts user st' = (json 200 (Posts l), st') /\ In post l).
Proof.
  intros Hs Hcast Hfresh Hid. cbv zeta.
  destruct (create_post_cases env user file req st) as [[Hne _] | (t & c & a & Hrun)];
    [contradiction |].
  destruct Hrun as (_ & _ & _ & _ & _ & Ha & Hrun). cbv zeta in Hrun.
  rewrite Hrun. simpl fst. simpl snd.
  eexists. split; [reflexivity |]. split; [exact Ha |]. split; [reflexivity |].
  split; [| split].
  - unfold get_post, try_catch, mbind, Action_bind, Post.findById.
    rewrite Hid, Hcast. cbn [posts].
    rewrite find_id_snoc; [reflexivity | exact Hfresh | reflexivity].
  - eexists. split; [reflexivity |]. cbn [posts].
    apply (Permutation_in _ (sort_desc_Permutation _)).
    apply in_or_app. right. now left.
  - unfold my_posts, try_catch, mbind, Action_bind, Post.find_by_author_sorted.
    rewrite Ha. eexists. split; [reflexivity |]. cbn [posts].
    apply (Permutation_in _ (sort_desc_Permutation _)).
    apply filter_In. split; [apply in_or_app; right; now left |].
    apply String.eqb_refl.
Qed.

Lemma create_then_read_witness :
  let user := mkPayload Sample.alice_id "alice" in
  let req := mkRequest None "" None None None (Some "Cat") (Some "Meow") None in
  let req' := mkRequest None "65a000000000000000000003" None None None None None None in
  let st' := snd (@create_post Sample.libraries Sample.env user None req Sample.store) in
  (status (fst (@create_post Sample.libraries Sample.env user None req Sample.store))
     = 201%nat /\
   @ObjectId_cast Sample.libraries (ObjectId_new Sample.env) = Some (ObjectId_new Sample.env) /\
   ~ In (ObjectId_new Sample.env) (map PostDoc._id (posts Sample.store))) /\
  exists post,
    fst (@create_post Sample.libraries Sample.env user None req Sample.store)
      = json 201 (OnePost post) /\
    @ObjectId_cast Sample.libraries (userId user) = Some (PostDoc.author post) /\
    PostDoc.authorName post = username user /\
    @get_post Sample.libraries req' st' = (json 200 (OnePost post), st') /\
    (exists l, list_posts st' = (json 200 (Posts l), st') /\ In post l) /\
    (exists l, @my_posts Sample.libraries user st' = (json 200 (Posts l), st') /\ In post l).
Proof.
  assert (Hfresh : ~ In (ObjectId_new Sample.env) (map PostDoc._id (posts Sample.store))).
  { simpl. intuition discriminate. }
  split; [repeat split; exact Hfresh |].
  apply (@create_then_read Sample.libraries Sample.env (mkPayload Sample.alice_id "alice")
           None (mkRequest None "" None None None (Some "Cat") (Some "Meow") None)
           (mkRequest None "65a000000000000000000003" None None None None None None)
           Sample.store); [reflexivity | reflexivity | exact Hfresh | reflexivity].
Defined.

Lemma remove_Permutation (o : ObjectId) (P : PostDoc.t) (l : list PostDoc.t) :
  List.find (fun q => String.eqb (PostDoc._id q) o) l = Some P ->
  Permutation l (P :: Post.remove o l).
Proof.
  induction l as [|q l IH]; simpl; [discriminate |].
  destruct (String.eqb (PostDoc._id q) o).
  - now intros [= ->].
  - intros Hfind. rewrite perm_swap. now apply perm_skip, IH.
Qed.

Lemma find_remove_other (o o' : ObjectId) (l : list PostDoc.t) :
  o' <> o ->
  List.find (fun q => String.eqb (PostDoc._id q) o') (Post.remove o l)
    = List.find (fun q => String.eqb (PostDoc._id q) o') l.
Proof.
  intros Hne. induction l as [|q l IH]; simpl; [reflexivity |].
  destruct (String.eqb_spec (PostDoc._id q) o) as [Hq|Hq]; simpl.
  - destruct (String.eqb_spec (PostDoc._id q) o'); [congruence | reflexivity].
  - now rewrite IH.
Qed.

Lemma find_remove_same (o : ObjectId) (l : list PostDoc.t) :
  List.NoDup (map PostDoc._id l) ->
  List.find (fun q => String.eqb (PostDoc._id q) o) (Post.remove o l) = None.
Proof.
  induction l as [|q l IH]; simpl; [reflexivity |].
  intros Hnd. apply NoDup_cons_iff in Hnd as [Hq Hl].
  destruct (String.eqb_spec (PostDoc._id q) o) as [Heq|Hne]; simpl.
  - apply find_id_none. intros p Hp Hid. apply Hq.
    apply in_map_iff. exists p. split; [congruence | exact Hp].
  - destruct (String.eqb_spec (PostDoc._id q) o); [contradiction | now apply IH].
Qed.

(** X8: Delete by the author removes exactly the post. When the post
    stored under the id is P and the identity's userId is P.author,
    Delete answers 200 "Post deleted successfully"; the stored posts
    before are P together with the stored posts after, and the users are
    untouched; every post under another id is found as before; and when
    ids are unique, a GetOne of the deleted id now answers 404. *)
Theorem delete_removes_exactly `{!Libraries} (user : Payload) (req : Request) (st : Store)
    (P : PostDoc.t) :
  fst (Post.findById (params_id req) st) = Ok (Some P) ->
  userId user = PostDoc.author P ->
  let st' := snd (delete_post user req st) in
  fst (delete_post user req st) = json 200 (Message "Post deleted successfully") /\
  users st' = users st /\
  Permutation (posts st) (P :: posts st') /\
  (forall id' o', ObjectId_cast id' = Some o' -> o' <> PostDoc._id P ->
     fst (Post.findById id' st') = fst (Post.findById id' st)) /\
  (ids_unique st -> get_post req st' = (json 404 (Message "Post not found"), st')).
Proof.
  intros Hfind Hauth. cbv zeta.
  destruct (findById_found _ _ _ Hfind) as (o & Hcast & Hlook & Hid).
  destruct (delete_post_store user req st) as [[Hne _] | (o1 & P1 & Hc1 & Hl1 & _ & Hrun)].
  - exfalso. apply Hne. apply findById_run in Hfind.
    unfold delete_post, try_catch, mbind, Action_bind. rewrite Hfind, Hauth, String.eqb_refl.
    unfold Post.findByIdAndDelete. now rewrite Hcast.
  - assert (o1 = o) as -> by congruence. assert (P1 = P) as -> by congruence.
    rewrite Hrun. simpl fst. simpl snd. cbn [users posts].
    split; [reflexivity |]. split; [reflexivity |].
    split; [now apply remove_Permutation |]. split.
    + intros id' o' Hc' Hne. unfold Post.findById. rewrite Hc'. cbn [fst posts].
      f_equal. apply find_remove_other. congruence.
    + intros Hids. unfold get_post, try_catch, mbind, Action_bind, Post.findById.
      rewrite Hcast. cbn [posts]. now rewrite (find_remove_same o _ Hids).
Qed.

Lemma delete_removes_exactly_witness :
  let user := mkPayload Sample.alice_id "alice" in
  let req := mkRequest None "65b000000000000000000001" None None None None None None in
  let st' := snd (@delete_post Sample.libraries user req Sample.store) in
  (fst (@Post.findById Sample.libraries (params_id req) Sample.store) = Ok (Some Sample.hi) /\
   userId user = PostDoc.author Sample.hi) /\
  fst (@delete_post Sample.libraries user req Sample.store)
    = json 200 (Message "Post deleted successfully") /\
  users st' = users Sample.store /\
  Permutation (posts Sample.store) (Sample.hi :: posts st') /\
  (forall id' o', @ObjectId_cast Sample.libraries id' = Some o' ->
     o' <> PostDoc._id Sample.hi ->
     fst (@Post.findById Sample.libraries id' st')
       = fst (@Post.findById Sample.libraries id' Sample.store)) /\
  (ids_unique Sample.store ->
     @get_post Sample.libraries req st' = (json 404 (Message "Post not found"), st')).
Proof.
  split; [split; reflexivity |].
  apply (@delete_removes_exactly Sample.libraries (mkPayload Sample.alice_id "alice")
           (mkRequest None "65b000000000000000000001" None None None None None None)
           Sample.store Sample.hi); reflexivity.
Defined.

Lemma find_replace_other (p : PostDoc.t) (o' : ObjectId) (l : list PostDoc.t) :
  PostDoc._id p <> o' ->
  List.find (fun q => String.eqb (PostDoc._id q) o') (Post.replace p l)
    = List.find (fun q => String.eqb (PostDoc._id q) o') l.
Proof.
  intros Hne. induction l as [|q l IH]; simpl; [reflexivity |].
  destruct (String.eqb_spec (PostDoc._id q) (PostDoc._id p)) as [Hq|Hq]; simpl.
  - destruct (String.eqb_spec (PostDoc._id p) o'); [contradiction |].
    destruct (String.eqb_spec (PostDoc._id q) o'); [congruence | reflexivity].
  - now rewrite IH.
Qed.

(** X9: an Update touches one post only. Whoever sends it and whatever
    it answers, a post stored under an ObjectId other than the one the
    :id of the request casts to is found unchanged afterwards, the number
    of stored posts is the same, and the users are untouched. *)
Theorem update_touches_one_post `{!Libraries} (env : Env) (user : Payload)
    (file : option File) (req : Request) (st : Store) (o : ObjectId) :
  ObjectId_cast (params_id req) = Some o ->
  let st' := snd (update_post env user file req st) in
  (forall id' o', ObjectId_cast id' = Some o' -> o' <> o ->
     fst (Post.findById id' st') = fst (Post.findById id' st)) /\
  List.length (posts st') = List.length (posts st) /\
  users st' = users st.
Proof.
  intros Hcast. cbv zeta.
  destruct (update_post_store env user file req st)
    as [-> | (o1 & P & P' & Hc1 & Hfind & Hid & _ & Hrun)]; [now repeat split |].
  assert (o1 = o) as -> by congruence.
  rewrite Hrun. simpl snd. cbn [users posts]. split; [| split; [| reflexivity]].
  - intros id' o' Hc' Hne. unfold Post.findById. rewrite Hc'. cbn [fst posts].
    f_equal. apply find_replace_other.
    apply find_some in Hfind as [_ Heq]. apply String.eqb_eq in Heq. congruence.
  - rewrite <- (length_map PostDoc._id), replace_ids. apply length_map.
Qed.

Lemma update_touches_one_post_witness :
  let user := mkPayload Sample.alice_id "alice" in
  let req := mkRequest None "65b000000000000000000001" None None None (Some "New") None
                       None in
  let st' := snd (@update_post Sample.libraries Sample.env user None req Sample.store) in
  @ObjectId_cast Sample.libraries (params_id req) = Some "65b000000000000000000001" /\
  (forall id' o', @ObjectId_cast Sample.libraries id' = Some o' ->
     o' <> "65b000000000000000000001" ->
     fst (@Post.findById Sample.libraries id' st')
       = fst (@Post.findById Sample.libraries id' Sample.store)) /\
  List.length (posts st') = List.length (posts Sample.store) /\
  users st' = users Sample.store.
Proof.
  split; [reflexivity |].
  apply (@update_touches_one_post Sample.libraries Sample.env
           (mkPayload Sample.alice_id "alice") None
           (mkRequest None "65b000000000000000000001" None None None (Some "New") None None)
           Sample.store "65b000000000000000000001"). reflexivity.
Defined.

(** ** ListMine inside ListAll *)

Lemma insert_desc_front (p : PostDoc.t) (l : list PostDoc.t) :
  Forall (fun q => PostDoc.createdAt q <= PostDoc.createdAt p) l ->
  Post.insert_desc p l = p :: l.
Proof.
  destruct 1 as [|q l Hq _]; simpl; [reflexivity |].
  destruct (Z.leb_spec (PostDoc.createdAt q) (PostDoc.createdAt p)); [reflexivity | lia].
Qed.

Lemma filter_insert_desc (f : PostDoc.t -> bool) (p : PostDoc.t) (l : list PostDoc.t) :
  StronglySorted Post.newest_first l ->
  List.filter f (Post.insert_desc p l)
    = if f p then Post.insert_desc p (List.filter f l) else List.filter f l.
Proof.
  induction 1 as [|q l Hl IH Hq]; simpl.
  - now destruct (f p).
  - destruct (Z.leb_spec (PostDoc.createdAt q) (PostDoc.createdAt p)) as [Hle|Hlt].
    + simpl. destruct (f p); [| reflexivity].
      symmetry. apply insert_desc_front.
      apply List.Forall_forall. intros x Hx.
      change (In x (List.filter f (q :: l))) in Hx. apply filter_In in Hx as [Hx _].
      destruct Hx as [<- | Hx]; [exact Hle |].
      pose proof (proj1 (List.Forall_forall _ _) Hq x Hx) as Hxq.
      unfold Post.newest_first in Hxq. lia.
    + simpl. rewrite IH. destruct (f q), (f p); simpl; try reflexivity.
      destruct (Z.leb_spec (PostDoc.createdAt q) (PostDoc.createdAt p)); [lia | reflexivity].
Qed.

Lemma sort_desc_StronglySorted (l : list PostDoc.t) :
  StronglySorted Post.newest_first (Post.sort_desc l).
Proof.
  apply Sorted_StronglySorted; [| apply sort_desc_Sorted].
  unfold Relations_1.Transitive, Post.newest_first. intros x y z. lia.
Qed.

Lemma sort_desc_filter (f : PostDoc.t -> bool) (l : list PostDoc.t) :
  Post.sort_desc (List.filter f l) = List.filter f (Post.sort_desc l).
Proof.
  induction l as [|p l IH]; simpl; [reflexivity |].
  rewrite (filter_insert_desc f p _ (sort_desc_StronglySorted l)), <- IH.
  now destruct (f p).
Qed.

Lemma createdAt_determines (l : list PostDoc.t) (x y : PostDoc.t) :
  List.NoDup (map PostDoc.createdAt l) -> In x l -> In y l ->
  PostDoc.createdAt x = PostDoc.createdAt y -> x = y.
Proof.
  induction l as [|z l IH]; simpl; [easy |].
  intros Hnd Hx Hy Heq. apply NoDup_cons_iff in Hnd as [Hz Hl].
  destruct Hx as [-> | Hx], Hy as [-> | Hy]; try reflexivity.
  - exfalso. apply Hz. rewrite Heq. now apply in_map.
  - exfalso. apply Hz. rewrite <- Heq. now apply in_map.
  - now apply IH.
Qed.

Lemma filter_createdAt_NoDup (f : PostDoc.t -> bool) (l : list PostDoc.t) :
  List.NoDup (map PostDoc.createdAt l) ->
  List.NoDup (map PostDoc.createdAt (List.filter f l)).
Proof.
  induction l as [|z l IH]; simpl; [easy |].
  intros Hnd. apply NoDup_cons_iff in Hnd as [Hz Hl].
  destruct (f z); simpl; [| now apply IH].
  constructor; [| now apply IH].
  intros Hin. apply Hz. apply in_map_iff in Hin as (q & Heq & Hq).
  apply in_map_iff. exists q. split; [exact Heq |]. now apply filter_In in Hq as [Hq _].
Qed.

Lemma newest_first_order_unique (l1 l2 : list PostDoc.t) :
  List.NoDup (map PostDoc.createdAt l1) ->
  Permutation l1 l2 ->
  StronglySorted (fun p q => PostDoc.createdAt p >= PostDoc.createdAt q) l1 ->
  StronglySorted (fun p q => PostDoc.createdAt p >= PostDoc.createdAt q) l2 ->
  l1 = l2.
Proof.
  revert l2. induction l1 as [|x l1 IH]; intros l2 Hnd Hperm Hs1 Hs2.
  - now apply Permutation_nil in Hperm.
  - destruct l2 as [|y l2]; [now apply Permutation_sym, Permutation_nil in Hperm |].
    apply StronglySorted_inv in Hs1 as [Hs1 Hx]. apply StronglySorted_inv in Hs2 as [Hs2 Hy].
    assert (Hyx : PostDoc.createdAt x >= PostDoc.createdAt y).
    { destruct (Permutation_in y (Permutation_sym Hperm) (or_introl eq_refl)) as [<- | Hin];
        [lia |].
      exact (proj1 (List.Forall_forall _ _) Hx y Hin). }
    assert (Hxy : PostDoc.createdAt y >= PostDoc.createdAt x).
    { destruct (Permutation_in x Hperm (or_introl eq_refl)) as [<- | Hin]; [lia |].
      exact (proj1 (List.Forall_forall _ _) Hy x Hin). }
    assert (x = y) as <-.
    { apply (createdAt_determines (x :: l1)); [exact Hnd | now left | | lia].
      exact (Permutation_in y (Permutation_sym Hperm) (or_introl eq_refl)). }
    f_equal. apply IH; [| now apply Permutation_cons_inv in Hperm | exact Hs1 | exact Hs2].
    simpl in Hnd. now apply NoDup_cons_iff in Hnd as [_ Hnd].
Qed.

Lemma sort_desc_is_the_order (l s : list PostDoc.t) :
  List.NoDup (map PostDoc.createdAt l) ->
  Permutation l s ->
  Sorted (fun p q => PostDoc.createdAt p >= PostDoc.createdAt q) s ->
  s = Post.sort_desc l.
Proof.
  intros Hnd Hperm Hs.
  assert (Htrans : Relations_1.Transitive
                     (fun p q : PostDoc.t => PostDoc.createdAt p >= PostDoc.createdAt q)).
  { intros x y z. lia. }
  symmetry. apply newest_first_order_unique.
  - apply (Permutation_NoDup (Permutation_map PostDoc.createdAt (sort_desc_Permutation l))).
    exact Hnd.
  - now rewrite <- (sort_desc_Permutation l).
  - apply Sorted_StronglySorted; [exact Htrans | apply sort_desc_adjacent].
  - now apply Sorted_StronglySorted.
Qed.

(** X10: ListMine is ListAll restricted to one author. When no two
    stored posts have the same createdAt and the identity's userId casts
    to the ObjectId [a], the list ListMine answers is the list ListAll
    answers on the same store with the posts of other authors left out,
    the remaining posts in the same order. Nothing here depends on how a
    sort places equal creation times: the list of ListAll is the only
    newest-first arrangement of the stored posts, and the list of ListMine
    the only newest-first arrangement of the stored posts of [a]. *)
Theorem list_mine_within_list_all `{!Libraries} (user : Payload) (a : ObjectId)
    (st : Store) :
  ObjectId_cast (userId user) = Some a ->
  List.NoDup (map PostDoc.createdAt (posts st)) ->
  exists everything mine : list PostDoc.t,
    list_posts st = (json 200 (Posts everything), st) /\
    my_posts user st = (json 200 (Posts mine), st) /\
    mine = List.filter (fun p => String.eqb (PostDoc.author p) a) everything /\
    (forall l, Permutation (posts st) l ->
       Sorted (fun p q => PostDoc.createdAt p >= PostDoc.createdAt q) l ->
       l = everything) /\
    (forall l,
       Permutation (List.filter (fun p => String.eqb (PostDoc.author p) a) (posts st)) l ->
       Sorted (fun p q => PostDoc.createdAt p >= PostDoc.createdAt q) l ->
       l = mine).
Proof.
  intros Hcast Hnd.
  exists (Post.sort_desc (posts st)),
         (Post.sort_desc (List.filter (fun p => String.eqb (PostDoc.author p) a) (posts st))).
  split; [reflexivity |]. split.
  { unfold my_posts, try_catch, mbind, Action_bind, Post.find_by_author_sorted.
    now rewrite Hcast. }
  split; [apply sort_desc_filter |]. split.
  - intros l Hperm Hs. now apply sort_desc_is_the_order.
  - intros l Hperm Hs. apply sort_desc_is_the_order; [| exact Hperm | exact Hs].
    now apply filter_createdAt_NoDup.
Qed.

Lemma sample_createdAt_NoDup : List.NoDup (map PostDoc.createdAt (posts Sample.store)).
Proof.
  simpl. repeat constructor; simpl; intuition discriminate.
Defined.

Lemma list_mine_within_list_all_witness :
  let user := mkPayload Sample.alice_id "alice" in
  let a := Sample.alice_id in
  (@ObjectId_cast Sample.libraries (userId user) = Some a /\
   List.NoDup (map PostDoc.createdAt (posts Sample.store))) /\
  exists everything mine : list PostDoc.t,
    list_posts Sample.store = (json 200 (Posts everything), Sample.store) /\
    @my_posts Sample.libraries user Sample.store = (json 200 (Posts mine), Sample.store) /\
    mine = List.filter (fun p => String.eqb (PostDoc.author p) a) everything /\
    (forall l, Permutation (posts Sample.store) l ->
       Sorted (fun p q => PostDoc.createdAt p >= PostDoc.createdAt q) l ->
       l = everything) /\
    (forall l,
       Permutation (List.filter (fun p => String.eqb (PostDoc.author p) a)
                                (posts Sample.store)) l ->
       Sorted (fun p q => PostDoc.createdAt p >= PostDoc.createdAt q) l ->
       l = mine).
Proof.
  split; [split; [reflexivity | exact sample_createdAt_NoDup] |].
  apply (@list_mine_within_list_all Sample.libraries);
    [reflexivity | exact sample_createdAt_NoDup].
Defined.

(** ** What the guard reads in the header *)

Lemma append_nil (t : string) : "" ++ t = t.
Proof. reflexivity. Qed.

Lemma append_cons (c : ascii) (s t : string) : String c s ++ t = String c (s ++ t).
Proof. reflexivity. Qed.

Lemma split_nonempty (sep : ascii) (s : string) : JS.split sep s <> [].
Proof.
  destruct s as [|c s]; simpl; [discriminate |].
  destruct (Ascii.eqb c sep); [discriminate |].
  destruct (JS.split sep s); discriminate.
Qed.

Lemma split_append_sep (sep : ascii) (a rest : string) :
  ~ In sep (list_ascii_of_string a) ->
  JS.split sep (a ++ String sep rest) = a :: JS.split sep rest.
Proof.
  induction a as [|c a IH]; intros Hnot.
  - rewrite append_nil. simpl. now rewrite Ascii.eqb_refl.
  - rewrite append_cons. simpl in *.
    destruct (Ascii.eqb_spec c sep) as [->|_]; [exfalso; apply Hnot; now left |].
    rewrite IH; [reflexivity |]. intros Hin. apply Hnot. now right.
Qed.

Lemma split_join (sep : ascii) (s : string) : join sep (JS.split sep s) = s.
Proof.
  induction s as [|c s IH]; simpl; [reflexivity |].
  pose proof (split_nonempty sep s) as Hne.
  destruct (Ascii.eqb_spec c sep) as [->|_].
  - destruct (JS.split sep s) as [|w ws]; [contradiction |].
    change (join sep ("" :: w :: ws)) with ("" ++ String sep (join sep (w :: ws))).
    now rewrite IH.
  - destruct (JS.split sep s) as [|w ws]; [contradiction |].
    destruct ws as [|w' ws]; simpl in *; [now rewrite IH |].
    rewrite append_cons. now rewrite IH.
Qed.

Lemma split_pieces (sep : ascii) (s w : string) :
  In w (JS.split sep s) -> ~ In sep (list_ascii_of_string w).
Proof.
  revert w. induction s as [|c s IH]; simpl; intros w Hin.
  - destruct Hin as [<- | []]. simpl. tauto.
  - destruct (Ascii.eqb_spec c sep) as [->|Hc].
    + destruct Hin as [<- | Hin]; [simpl; tauto | now apply IH].
    + destruct (JS.split sep s) as [|v vs]; simpl in Hin.
      * destruct Hin as [<- | []]. simpl. intros [Heq | []]. now apply Hc.
      * destruct Hin as [<- | Hin].
        -- simpl. intros [Heq | Hv]; [now apply Hc |].
           apply (IH v); [now left | exact Hv].
        -- apply IH. now right.
Qed.

(** X11: the split of the Authorization header loses nothing and the
    token never holds a space. The pieces of [authHeader.split(" ")],
    joined again by single spaces, are the header; no piece contains a
    space; and whatever token the guard takes from a header contains no
    space. *)
Theorem header_split_is_lossless (authHeader : string) :
  join " " (JS.split " " authHeader) = authHeader /\
  (forall piece, In piece (JS.split " " authHeader) ->
     ~ In " "%char (list_ascii_of_string piece)) /\
  (forall token, bearer_token (Some authHeader) = Some token ->
     ~ In " "%char (list_ascii_of_string token)).
Proof.
  split; [apply split_join |]. split; [intros piece; apply split_pieces |].
  intros token. unfold bearer_token, JS.and, JS.index.
  destruct (String.eqb_spec authHeader "") as [->|_].
  - intros [= <-]. simpl. tauto.
  - intros Hnth. apply nth_error_In in Hnth. now apply split_pieces in Hnth.
Qed.

Lemma append_sep_not_empty (a b : string) (c : ascii) :
  String.eqb (a ++ String c b) "" = false.
Proof. destruct a; reflexivity. Qed.

(** X12: the guard never looks at the scheme word of the header. For
    any word and token without spaces, token not empty, the header
    "<word> <token>" and the header "<word> <token> <anything>" yield
    <token>: when it verifies, the handler runs with its identity, be the
    word "Bearer" or not. *)
Theorem guard_ignores_scheme `{!Libraries} (env : Env) (req : Request)
    (next : Payload -> Handler) (st : Store) (scheme token junk : string) (user : Payload) :
  ~ In " "%char (list_ascii_of_string scheme) ->
  ~ In " "%char (list_ascii_of_string token) ->
  token <> "" ->
  authorization req = Some (scheme ++ String " " token) \/
  authorization req = Some (scheme ++ String " " (token ++ String " " junk)) ->
  jwt_verify token (secret env) = Some user ->
  authenticateToken env req next st = next user st.
Proof.
  intros Hs Ht Hne Hhdr Hv.
  assert (Htok : bearer_token (authorization req) = Some token).
  { unfold bearer_token, JS.and, JS.index.
    destruct Hhdr as [-> | ->]; rewrite append_sep_not_empty, (split_append_sep _ _ _ Hs).
    - now rewrite (split_no_sep _ _ Ht).
    - now rewrite (split_append_sep _ _ _ Ht). }
  rewrite authenticateToken_cases, Htok.
  apply String.eqb_neq in Hne. now rewrite Hne, Hv.
Qed.

Lemma guard_ignores_scheme_witness :
  let token := "65a000000000000000000001.alice.your-secret-key" in
  let req := mkRequest (Some ("Basic" ++ String " " (token ++ String " " "and more")))
                       "" None None None None None None in
  @authenticateToken Sample.libraries Sample.env req
     (fun user => @my_posts Sample.libraries user) Sample.store
  = @my_posts Sample.libraries (mkPayload Sample.alice_id "alice") Sample.store.
Proof.
  apply (@guard_ignores_scheme Sample.libraries Sample.env _ _ Sample.store "Basic"
           "65a000000000000000000001.alice.your-secret-key" "and more"
           (mkPayload Sample.alice_id "alice")).
  - vm_compute. intuition discriminate.
  - vm_compute. intuition discriminate.
  - discriminate.
  - right. reflexivity.
  - reflexivity.
Defined.

(** ** The stored name of an upload *)

Lemma Number_toString_inj (a b : Z) :
  JS.Number_toString a = JS.Number_toString b -> a = b.
Proof.
  unfold JS.Number_toString. intros Heq.
  assert (Hnil : forall z, Z.to_int z <> Decimal.Pos Decimal.Nil /\
                           Z.to_int z <> Decimal.Neg Decimal.Nil).
  { intros [|p|p]; simpl; split; try discriminate;
      intros [= Hp]; now apply Unsigned.to_uint_nonnil in Hp. }
  apply DecimalZ.to_int_inj.
  assert (Hs : Some (Z.to_int a) = Some (Z.to_int b)); [| now injection Hs].
  rewrite <- (NilZero.isi (Z.to_int a)), <- (NilZero.isi (Z.to_int b));
    try apply Hnil.
  now rewrite Heq.
Qed.

Lemma chars_append (s t : string) :
  list_ascii_of_string (s ++ t) = (list_ascii_of_string s ++ list_ascii_of_string t)%list.
Proof.
  induction s as [|c s IH]; [reflexivity |].
  rewrite append_cons. simpl. now rewrite IH.
Qed.

Lemma append_inv_tail (s1 s2 e : string) : s1 ++ e = s2 ++ e -> s1 = s2.
Proof.
  intros Heq. apply (f_equal list_ascii_of_string) in Heq.
  rewrite !chars_append in Heq. apply app_inv_tail in Heq.
  apply (f_equal string_of_list_ascii) in Heq.
  now rewrite !string_of_list_ascii_of_string in Heq.
Qed.

(** X13: the stored name of an upload is the time, not the file. Two
    uploads whose original names have the same extension get the same
    stored file name exactly when Date.now() is the same millisecond for
    both; the rest of the original name plays no part. *)
Theorem upload_name_is_the_time `{!Libraries} (env1 env2 : Env) (name1 name2 : string) :
  path_extname name1 = path_extname name2 ->
  (multer_filename env1 name1 = multer_filename env2 name2 <->
   Date_now env1 = Date_now env2).
Proof.
  intros Hext. unfold multer_filename. rewrite Hext. split.
  - intros Heq. apply append_inv_tail in Heq. now apply Number_toString_inj.
  - now intros ->.
Qed.

Lemma upload_name_is_the_time_witness :
  let later := mkEnv None 1700000000001 0 "" in
  @path_extname Sample.libraries "cat.png" = @path_extname Sample.libraries "dog.png" /\
  (@multer_filename Sample.libraries Sample.env "cat.png"
     = @multer_filename Sample.libraries later "dog.png" <->
   Date_now Sample.env = Date_now later).
Proof.
  split; [reflexivity |].
  apply (@upload_name_is_the_time Sample.libraries). reflexivity.
Defined.

(** ** The three answers of Register *)

Lemma findOne_or_spec (email username : option string) (st : Store) :
  let collides :=
    exists u, In u (users st) /\
              (email = Some (UserDoc.email u) \/ username = Some (UserDoc.username u)) in
  (exists v, User.findOne_or email username st = (Ok (Some v), st) /\ collides) \/
  (User.findOne_or email username st = (Ok None, st) /\ ~ collides).
Proof.
  cbv zeta. unfold User.findOne_or.
  destruct (List.find _ (users st)) as [v|] eqn:Hfind.
  - left. exists v. split; [reflexivity |].
    apply find_some in Hfind as [Hin Hm]. exists v. split; [exact Hin |].
    apply orb_true_iff in Hm as [Hm|Hm]; unfold matches in Hm.
    + left. destruct email as [e|]; [| discriminate]. apply String.eqb_eq in Hm. congruence.
    + right. destruct username as [n|]; [| discriminate].
      apply String.eqb_eq in Hm. congruence.
  - right. split; [reflexivity |]. intros (u & Hin & Hcol).
    pose proof (find_none _ _ Hfind u Hin) as Hm. simpl in Hm.
    apply orb_false_iff in Hm as [He Hn].
    destruct Hcol as [-> | ->]; simpl in *; now rewrite String.eqb_refl in *.
Qed.

(** X14: Register has three answers and the request decides which. It
    answers 400 exactly when a stored user has the email or the username
    of the request; 201 exactly when none has and the username and the
    email are non-empty strings and the password is a string whose hash
    is not empty; and 500 in every other case (a missing or empty
    username or email, a missing password). *)
Theorem register_status `{!Libraries} (env : Env) (req : Request) (st : Store) :
  let collides :=
    exists u, In u (users st) /\
              (body_email req = Some (UserDoc.email u) \/
               body_username req = Some (UserDoc.username u)) in
  let well_formed :=
    exists n e p, body_username req = Some n /\ body_email req = Some e /\
                  body_password req = Some p /\ n <> "" /\ e <> "" /\
                  bcrypt_hash p 10 <> "" in
  let s := status (fst (register env req st)) in
  (s = 400%nat <-> collides) /\
  (s = 201%nat <-> ~ collides /\ well_formed) /\
  (s = 500%nat <-> ~ collides /\ ~ well_formed) /\
  (s = 400%nat \/ s = 201%nat \/ s = 500%nat).
Proof.
  cbv zeta.
  destruct (findOne_or_spec (body_email req) (body_username req) st)
    as [(v & Hrun & Hcol) | [Hrun Hfree]]; cbv zeta in *.
  - assert (Hs : status (fst (register env req st)) = 400%nat).
    { unfold register, try_catch, mbind, Action_bind. cbv zeta. now rewrite Hrun. }
    rewrite Hs. split; [| split; [| split]].
    + split; [intros _; exact Hcol | reflexivity].
    + split; [discriminate | intros [Hn _]; contradiction].
    + split; [discriminate | intros [Hn _]; contradiction].
    + now left.
  - assert (Hreg : (status (fst (register env req st)) = 201%nat /\
                    exists n e p, body_username req = Some n /\ body_email req = Some e /\
                      body_password req = Some p /\ n <> "" /\ e <> "" /\
                      bcrypt_hash p 10 <> "") \/
                   (status (fst (register env req st)) = 500%nat /\
                    ~ exists n e p, body_username req = Some n /\ body_email req = Some e /\
                      body_password req = Some p /\ n <> "" /\ e <> "" /\
                      bcrypt_hash p 10 <> "")).
    { destruct (register_cases env req st)
        as [[Hne _] | (n & e & p & Hn & He & Hp & Hn0 & He0 & Hh0 & _ & Hreg)].
      - right. split.
        + revert Hne. unfold register, try_catch, mbind, Action_bind. cbv zeta.
          rewrite Hrun. unfold bcrypt_hash_js, User.save.
          destruct (body_password req); simpl; [| reflexivity].
          destruct (checkRequired (body_username req)); simpl; [| reflexivity].
          destruct (checkRequired (body_email req)); simpl; [| reflexivity].
          destruct (String.eqb (bcrypt_hash _ 10) ""); simpl; [reflexivity |].
          destruct (User.duplicate _ _ st); simpl; [reflexivity | now intros []].
        + intros (n & e & p & Hn & He & Hp & Hn0 & He0 & Hh0). apply Hne.
          assert (Hall : forall u, In u (users st) ->
                           UserDoc.email u <> e /\ UserDoc.username u <> n).
          { intros u Hin. split; intros Heq; apply Hfree; exists u;
              (split; [exact Hin |]); [left | right]; congruence. }
          unfold register, try_catch, mbind, Action_bind. cbv zeta.
          rewrite Hn, He, Hp, (findOne_or_none e n st Hall). simpl.
          unfold User.save, checkRequired.
          apply String.eqb_neq in Hn0, He0, Hh0. rewrite Hn0, He0, Hh0.
          now rewrite (duplicate_false n e st Hall).
      - left. rewrite Hreg. split; [reflexivity |]. now exists n, e, p. }
    destruct Hreg as [[Hs Hwf] | [Hs Hwf]]; rewrite Hs; (split; [| split; [| split]]).
    + split; [discriminate | intros Hcol; now apply Hfree in Hcol].
    + split; [intros _; now split | reflexivity].
    + split; [discriminate | intros [_ Hn]; contradiction].
    + right. now left.
    + split; [discriminate | intros Hcol; now apply Hfree in Hcol].
    + split; [discriminate | intros [_ Hn]; contradiction].
    + split; [intros _; now split | reflexivity].
    + right. now right.
Qed.

(** X15: a username and an email can be registered once. After a
    Register that answered 201, any later Register whose email or whose
    username is that of the first request answers 400 "User already
    exists" and leaves the store as it is. *)
Theorem register_twice_conflicts `{!Libraries} (env env2 : Env) (req req2 : Request)
    (st : Store) :
  status (fst (register env req st)) = 201%nat ->
  body_email req2 = body_email req \/ body_username req2 = body_username req ->
  register env2 req2 (snd (register env req st)) =
    (json 400 (Message "User already exists"), snd (register env req st)).
Proof.
  intros Hs Hsame.
  destruct (register_cases env req st)
    as [[Hne _] | (n & e & p & Hn & He & _ & _ & _ & _ & _ & Hrun)]; [contradiction |].
  rewrite Hrun. simpl snd.
  set (u := UserDoc.mk (ObjectId_new env) n e (bcrypt_hash p 10) (timestamp env)
                       (timestamp env)).
  destruct (findOne_or_some (body_email req2) (body_username req2)
              (mkStore (users st ++ [u]) (posts st)) u) as [v Hv].
  - simpl. apply in_or_app. right. now left.
  - destruct Hsame as [-> | ->]; [left | right]; assumption.
  - unfold register, try_catch, mbind, Action_bind. cbv zeta. now rewrite Hv.
Qed.

Lemma register_twice_conflicts_witness :
  let req := mkRequest None "" (Some "carol") (Some "c@x.com") (Some "pw3")
                       None None None in
  let req2 := mkRequest None "" (Some "carol") (Some "other@x.com") (Some "pw4")
                        None None None in
  let st' := snd (@register Sample.libraries Sample.env req Sample.store) in
  (status (fst (@register Sample.libraries Sample.env req Sample.store)) = 201%nat /\
   (body_email req2 = body_email req \/ body_username req2 = body_username req)) /\
  @register Sample.libraries Sample.env req2 st'
    = (json 400 (Message "User already exists"), st').
Proof.
  split; [split; [reflexivity | now right] |].
  apply (@register_twice_conflicts Sample.libraries Sample.env Sample.env
           (mkRequest None "" (Some "carol") (Some "c@x.com") (Some "pw3") None None None)
           (mkRequest None "" (Some "carol") (Some "other@x.com") (Some "pw4")
                      None None None)
           Sample.store); [reflexivity | now right].
Defined.

(** ** Lookups on collections without duplicates *)

Lemma find_unique {A} (key : A -> string) (l : list A) (x : A) :
  List.NoDup (map key l) -> In x l ->
  List.find (fun y => String.eqb (key y) (key x)) l = Some x.
Proof.
  induction l as [|y l IH]; simpl; [easy |].
  intros Hnd Hin. apply NoDup_cons_iff in Hnd as [Hy Hl].
  destruct Hin as [-> | Hin].
  - now rewrite String.eqb_refl.
  - destruct (String.eqb_spec (key y) (key x)) as [Heq|_]; [| now apply IH].
    exfalso. apply Hy. rewrite Heq. now apply in_map.
Qed.

Lemma find_pointwise {A} (f g : A -> bool) (l : list A) :
  (forall x, f x = g x) -> List.find f l = List.find g l.
Proof.
  intros Hfg. induction l as [|y l IH]; simpl; [reflexivity |].
  now rewrite Hfg, IH.
Qed.

(** X16: each registered user logs in as themselves. When the stored
    emails are pairwise different, a Login with the email of a stored
    user u answers 200 with the token and projection of u if
    bcrypt.compare accepts the password against u's hash, and 400
    "Invalid credentials" if it does not, whoever else is stored. *)
Theorem login_finds_the_user `{!Libraries} (env : Env) (req : Request) (st : Store)
    (u : UserDoc.t) (pw : string) :
  users_ok st -> In u (users st) ->
  body_email req = Some (UserDoc.email u) -> body_password req = Some pw ->
  login env req st =
    (if bcrypt_compare pw (UserDoc.password u)
     then json 200
            (TokenUser
               (jwt_sign (mkPayload (UserDoc._id u) (UserDoc.username u)) (secret env)
                         (mkSignOptions "24h"))
               (mkPublicUser (UserDoc._id u) (UserDoc.username u) (UserDoc.email u)))
     else json 400 (Message "Invalid credentials"),
     st).
Proof.
  intros (_ & Hemails & _) Hin He Hp.
  unfold login, try_catch, mbind, Action_bind, User.findOne. cbv zeta.
  rewrite He, Hp. unfold matches.
  assert (Hfind : List.find (fun v => String.eqb (UserDoc.email u) (UserDoc.email v))
                            (users st) = Some u).
  { rewrite <- (find_unique UserDoc.email (users st) u Hemails Hin).
    apply find_pointwise. intros v. apply String.eqb_sym. }
  rewrite Hfind. simpl. now destruct (bcrypt_compare pw (UserDoc.password u)).
Qed.

Lemma login_finds_the_user_witness :
  let req := mkRequest None "" None (Some "b@x.com") (Some "pw2") None None None in
  (users_ok Sample.store /\ In Sample.bob (users Sample.store)) /\
  @login Sample.libraries Sample.env req Sample.store =
    (if @bcrypt_compare Sample.libraries "pw2" (UserDoc.password Sample.bob)
     then json 200
            (TokenUser
               (@jwt_sign Sample.libraries
                  (mkPayload (UserDoc._id Sample.bob) (UserDoc.username Sample.bob))
                  (secret Sample.env) (mkSignOptions "24h"))
               (mkPublicUser (UserDoc._id Sample.bob) (UserDoc.username Sample.bob)
                             (UserDoc.email Sample.bob)))
     else json 400 (Message "Invalid credentials"),
     Sample.store).
Proof.
  assert (Hin : In Sample.bob (users Sample.store)) by (right; now left).
  split; [split; [exact sample_users_ok | exact Hin] |].
  apply (@login_finds_the_user Sample.libraries Sample.env
           (mkRequest None "" None (Some "b@x.com") (Some "pw2") None None None)
           Sample.store Sample.bob "pw2");
    [exact sample_users_ok | exact Hin | reflexivity | reflexivity].
Defined.

(** X17: each stored post is read back by its id. When the post ids
    are pairwise different and the :id of the request casts to the id of
    a stored post P, GetOne answers 200 with P itself. *)
Theorem get_post_finds_the_post `{!Libraries} (req : Request) (st : Store) (P : PostDoc.t) :
  ids_unique st -> In P (posts st) ->
  ObjectId_cast (params_id req) = Some (PostDoc._id P) ->
  get_post req st = (json 200 (OnePost P), st).
Proof.
  intros Hids Hin Hcast.
  unfold get_post, try_catch, mbind, Action_bind, Post.findById.
  now rewrite Hcast, (find_unique PostDoc._id (posts st) P Hids Hin).
Qed.

Lemma get_post_finds_the_post_witness :
  let req := mkRequest None "65b000000000000000000003" None None None None None None in
  (ids_unique Sample.store /\ In Sample.old (posts Sample.store) /\
   @ObjectId_cast Sample.libraries (params_id req) = Some (PostDoc._id Sample.old)) /\
  @get_post Sample.libraries req Sample.store = (json 200 (OnePost Sample.old), Sample.store).
Proof.
  assert (Hin : In Sample.old (posts Sample.store)) by (right; right; now left).
  split; [split; [apply sample_posts_ok | split; [exact Hin | reflexivity]] |].
  apply (@get_post_finds_the_post Sample.libraries
           (mkRequest None "65b000000000000000000003" None None None None None None)
           Sample.store Sample.old); [apply sample_posts_ok | exact Hin | reflexivity].
Defined.
